(** * TradeX: the price feed and ledger engine of [bot.py]

    A shallow embedding of the stock-market game bot and the proofs of its
    specified properties.

    Modelling conventions.
    - The two module-level dictionaries [users_data] and [stocks_data] are
      finite maps keyed by strings; the pair of them is [bot_state], threaded
      explicitly through every command.
    - Share counts are Python [int]s, here [Z].  The amounts of money
      (prices, balances, totals, percent changes) are embedded twice.  For
      the catalog, the runs of commands and the files they are exact
      rationals [Qc]: each amount stands for its value, and the rounding
      error, the infinities and the NaN of binary floating point are left
      out.  For the statements on a single order, whose truth depends on how
      Python multiplies, compares and formats, module [Py] embeds [register],
      [buy] and [sell] again over Python's own numbers, [int] and binary64
      [float], with the exception that an [int] too large for a [float]
      raises.
    - A stock record is a dictionary whose keys may be missing (the mock
      generator creates a record with a price only), hence the optional
      fields of [stock].
    - What a command sends back with [ctx.send] is a constructor of [reply]
      carrying the values that the message interpolates; that the message is
      delivered is taken for granted.
    - Clock readings, the outcome of the remote quote lookup, the random draw
      and Python's string hash are inputs of the functions that use them. *)

From Stdlib Require Import ZArith QArith Qcanon String Ascii List Lia Lqa SpecFloat.
From stdpp Require Import base numbers option list strings gmap fin_maps sorting.

Local Open Scope Z_scope.

(** ** Numbers *)

(** [x < y] on exact rationals, as a boolean test. *)
Definition Qc_ltb (x y : Qc) : bool :=
  match (x ?= y)%Qc with
  | Lt => true
  | _ => false
  end.

(** [price * shares]: a money amount times an integer share count. *)
Definition times_shares (price : Qc) (shares : Z) : Qc :=
  (price * Qc_of_Z shares)%Qc.

(** [DEFAULT_STARTING_BALANCE = 10000.0] *)
Definition DEFAULT_STARTING_BALANCE : Qc := Qc_of_Z 10000.

(** ** Strings *)

(** [str.upper()] on the ASCII range: a..z are shifted to A..Z, every other
    character is kept. *)
Definition upper_ascii (c : ascii) : ascii :=
  let n := nat_of_ascii c in
  if ((97 <=? n)%nat && (n <=? 122)%nat)%bool then ascii_of_nat (n - 32) else c.

Fixpoint upper (s : string) : string :=
  match s with
  | EmptyString => EmptyString
  | String c s' => String (upper_ascii c) (upper s')
  end.

(** ** Data model *)

Inductive tx_kind := TxBuy | TxSell.

(** One entry of an account's ["transactions"] list. *)
Record transaction := {
  tx_type : tx_kind;
  tx_symbol : string;
  tx_shares : Z;
  tx_price : Qc;
  tx_total : Qc;
  tx_timestamp : string
}.

(** [users_data[user_id]]: the three keys are always written together by
    [register] and read with plain subscripts. *)
Record account := {
  balance : Qc;
  portfolio : gmap string Z;
  transactions : list transaction
}.

(** One entry of a stock's ["history"] list. *)
Record history_entry := {
  h_time : string;
  h_price : Qc
}.

(** [stocks_data[symbol]]: every key is read through [.get] or an [in] test
    somewhere in the program, so each may be absent. *)
Record stock := {
  current_price : option Qc;
  history : option (list history_entry);
  percent_change : option Qc
}.

Record bot_state := {
  users_data : gmap string account;
  stocks_data : gmap string stock
}.

(** What a command sends to the channel. *)
Inductive reply :=
| AlreadyRegistered
| Welcome (starting_balance : Qc)
| NotRegistered
| NotTracked (symbol : string)
| AtLeastOneShare
| NotEnoughMoney (cost bal : Qc)
| NotEnoughShares (owned : Z) (symbol : string)
| PurchaseSuccessful (symbol : string) (shares : Z) (price total new_balance : Qc)
| SaleSuccessful (symbol : string) (shares : Z) (price total new_balance : Qc)
| StockAdded (symbol : string) (price : Qc).

(** ** Account ledger *)

(** [stocks_data[symbol].get("current_price", 0)] *)
Definition get_current_price (rec : stock) : Qc :=
  default (Qc_of_Z 0) (current_price rec).

(** [register]: refuses a known [user_id], otherwise opens an account with the
    starting balance, an empty portfolio and an empty log. *)
Definition register (user_id : string) (st : bot_state) : bot_state * reply :=
  match users_data st !! user_id with
  | Some _ => (st, AlreadyRegistered)
  | None =>
      ({| users_data :=
            <[user_id := {| balance := DEFAULT_STARTING_BALANCE;
                            portfolio := ∅;
                            transactions := [] |}]> (users_data st);
          stocks_data := stocks_data st |},
       Welcome DEFAULT_STARTING_BALANCE)
  end.

(** [buy], up to the call of [save_data]: the three validations, the funds
    test, then the debit, the portfolio increment and the transaction record.
    The reply of the successful branch is the embed that is sent after saving. *)
Definition buy (now user_id symbol : string) (shares : Z) (st : bot_state)
  : bot_state * reply :=
  let symbol := upper symbol in
  match users_data st !! user_id with
  | None => (st, NotRegistered)
  | Some acc =>
      match stocks_data st !! symbol with
      | None => (st, NotTracked symbol)
      | Some rec =>
          if shares <=? 0 then (st, AtLeastOneShare)
          else
            let price := get_current_price rec in
            let total_cost := times_shares price shares in
            if Qc_ltb (balance acc) total_cost
            then (st, NotEnoughMoney total_cost (balance acc))
            else
              let balance' := (balance acc - total_cost)%Qc in
              let portfolio0 :=
                match portfolio acc !! symbol with
                | None => <[symbol := 0]> (portfolio acc)
                | Some _ => portfolio acc
                end in
              let portfolio' :=
                <[symbol := default 0 (portfolio0 !! symbol) + shares]> portfolio0 in
              let transaction :=
                {| tx_type := TxBuy; tx_symbol := symbol; tx_shares := shares;
                   tx_price := price; tx_total := total_cost;
                   tx_timestamp := now |} in
              let acc' :=
                {| balance := balance';
                   portfolio := portfolio';
                   transactions := transactions acc ++ [transaction] |} in
              ({| users_data := <[user_id := acc']> (users_data st);
                  stocks_data := stocks_data st |},
               PurchaseSuccessful symbol shares price total_cost balance')
      end
  end.

(** [sell], up to the call of [save_data]. *)
Definition sell (now user_id symbol : string) (shares : Z) (st : bot_state)
  : bot_state * reply :=
  let symbol := upper symbol in
  match users_data st !! user_id with
  | None => (st, NotRegistered)
  | Some acc =>
      match stocks_data st !! symbol with
      | None => (st, NotTracked symbol)
      | Some rec =>
          if shares <=? 0 then (st, AtLeastOneShare)
          else
            let too_few :=
              match portfolio acc !! symbol with
              | None => true
              | Some held => held <? shares
              end in
            if too_few
            then
              let owned := default 0 (portfolio acc !! symbol) in
              (st, NotEnoughShares owned symbol)
            else
              let price := get_current_price rec in
              let total_value := times_shares price shares in
              let balance' := (balance acc + total_value)%Qc in
              let portfolio1 :=
                <[symbol := default 0 (portfolio acc !! symbol) - shares]>
                  (portfolio acc) in
              let portfolio' :=
                if decide (portfolio1 !! symbol = Some 0)
                then delete symbol portfolio1
                else portfolio1 in
              let transaction :=
                {| tx_type := TxSell; tx_symbol := symbol; tx_shares := shares;
                   tx_price := price; tx_total := total_value;
                   tx_timestamp := now |} in
              let acc' :=
                {| balance := balance';
                   portfolio := portfolio';
                   transactions := transactions acc ++ [transaction] |} in
              ({| users_data := <[user_id := acc']> (users_data st);
                  stocks_data := stocks_data st |},
               SaleSuccessful symbol shares price total_value balance')
      end
  end.

(** ** Exceptions *)

(** The exceptions that the modelled code can raise: a missing dictionary key,
    a failed file operation, and an [int] that is too large to be converted
    to a [float]. *)
Inductive exn :=
| KeyError (key : string)
| OSError
| OverflowError.

Inductive result (A : Type) :=
| Return (x : A)
| Raise (e : exn).
Arguments Return {A} x.
Arguments Raise {A} e.

(** ** Price source *)

(** Python's [round] to an integer: the nearest one, ties to the even one. *)
Definition round_half_even (q : Qc) : Z :=
  let n := Qnum q in
  let d := Z.pos (Qden q) in
  let f := n / d in
  let r := n mod d in
  match 2 * r ?= d with
  | Lt => f
  | Gt => f + 1
  | Eq => if Z.even f then f else f + 1
  end.

(** [round(x, 2)] *)
Definition round2 (x : Qc) : Qc :=
  (Qc_of_Z (round_half_even (x * Qc_of_Z 100)) / Qc_of_Z 100)%Qc.

(** [generate_mock_price]: [hash] is Python's string hash and [rnd] the value
    drawn by [random.random()].  For an untracked symbol the base price is
    stored in a fresh record and returned; for a tracked one the stored price
    is perturbed, and a record without a price raises [KeyError]. *)
Definition generate_mock_price (hash : string → Z) (rnd : Qc) (symbol : string)
    (stocks : gmap string stock) : result (Qc * gmap string stock) :=
  let base_price := Qc_of_Z (hash symbol mod 1000) in
  match stocks !! symbol with
  | None =>
      Return (base_price,
              <[symbol := {| current_price := Some base_price;
                             history := None;
                             percent_change := None |}]> stocks)
  | Some rec =>
      match current_price rec with
      | None => Raise (KeyError "current_price")
      | Some current =>
          let change_percent := ((rnd - Q2Qc (1 # 2)) * Q2Qc (5 # 100))%Qc in
          let new_price := (current * (1 + change_percent))%Qc in
          Return (round2 new_price, stocks)
      end
  end.

(** ** Instrument catalog *)

(** [history[-24:]] and its generalisation: the last [n] elements. *)
Definition last_n {A} (n : nat) (l : list A) : list A :=
  drop (length l - n) l.

(** The part of [update_stock_prices] that records an obtained [price] in the
    record of a symbol: the history append with its truncation to 24 entries,
    then the current price and the percent change. *)
Definition record_price (timestamp : string) (price : Qc) (rec : stock) : stock :=
  let history0 := default [] (history rec) in
  let history1 := history0 ++ [{| h_time := timestamp; h_price := price |}] in
  let history' :=
    if (24 <? length history1)%nat then last_n 24 history1 else history1 in
  let old_price := default price (current_price rec) in
  {| current_price := Some price;
     history := Some history';
     percent_change :=
       Some (if Qc_ltb (Qc_of_Z 0) old_price
             then ((price - old_price) / old_price * Qc_of_Z 100)%Qc
             else Qc_of_Z 0) |}.

(** One iteration of the loop of [update_stock_prices]: [quote] is what
    [fetch_stock_price] returned.  Any exception of the body is caught and the
    symbol is left as it is. *)
Definition update_stock_price (hash : string → Z) (quote : option Qc) (rnd : Qc)
    (timestamp symbol : string) (stocks : gmap string stock) : gmap string stock :=
  let priced :=
    match quote with
    | Some price => Return (price, stocks)
    | None => generate_mock_price hash rnd symbol stocks
    end in
  match priced with
  | Raise _ => stocks
  | Return (price, stocks1) =>
      match stocks1 !! symbol with
      | None => stocks1
      | Some rec => <[symbol := record_price timestamp price rec]> stocks1
      end
  end.

(** The inputs of one refresh cycle, per symbol: the quote lookup, the random
    draw and the clock reading. *)
Record cycle := {
  quote_of : string → option Qc;
  rnd_of : string → Qc;
  clock_of : string → string
}.

(** [update_stock_prices], up to the call of [save_data]: the loop over the
    symbols that are tracked when the cycle starts.  On an empty catalog the
    source returns before the loop, which the loop over no symbol gives too. *)
Definition update_stock_prices (hash : string → Z) (c : cycle)
    (stocks : gmap string stock) : gmap string stock :=
  foldl (λ acc symbol,
           update_stock_price hash (quote_of c symbol) (rnd_of c symbol)
             (clock_of c symbol) symbol acc)
        stocks (map_to_list stocks).*1.

(** Successive refresh cycles. *)
Definition run_cycles (hash : string → Z) (cs : list cycle)
    (stocks : gmap string stock) : gmap string stock :=
  foldl (λ acc c, update_stock_prices hash c acc) stocks cs.

(** The price that a cycle obtains for a tracked symbol with record [rec]: the
    quote when there is one, else the perturbed stored price; none when the
    quote is missing and the record has no price to perturb. *)
Definition refreshed_price (c : cycle) (symbol : string) (rec : stock)
  : option Qc :=
  match quote_of c symbol with
  | Some price => Some price
  | None =>
      (λ current : Qc,
         round2 (current
                 * (1 + (rnd_of c symbol - Q2Qc (1 # 2)) * Q2Qc (5 # 100)))%Qc)
        <$> current_price rec
  end.

(** What a cycle makes of the record of a tracked symbol. *)
Definition refresh_record (c : cycle) (symbol : string) (rec : stock) : stock :=
  match refreshed_price c symbol rec with
  | Some price => record_price (clock_of c symbol) price rec
  | None => rec
  end.


(** A list of (timestamp, price) updates recorded one after the other. *)
Definition entry_of (u : string * Qc) : history_entry :=
  {| h_time := u.1; h_price := u.2 |}.

Definition record_prices (rec : stock) (ups : list (string * Qc)) : stock :=
  foldl (λ r u, record_price u.1 u.2 r) rec ups.

(** [add_stock], up to the call of [save_data]: without an explicit [price] the
    quote is tried first and the mock generator second (and once more in the
    [except] branch); the record is then replaced by a fresh one. *)
Definition add_stock (hash : string → Z) (quote : option Qc) (rnd : Qc)
    (now symbol : string) (price : option Qc) (st : bot_state)
  : result (bot_state * reply) :=
  let symbol := upper symbol in
  let priced :=
    match price with
    | Some p => Return (p, stocks_data st)
    | None =>
        match quote with
        | Some p => Return (p, stocks_data st)
        | None =>
            match generate_mock_price hash rnd symbol (stocks_data st) with
            | Return r => Return r
            | Raise _ => generate_mock_price hash rnd symbol (stocks_data st)
            end
        end
    end in
  match priced with
  | Raise e => Raise e
  | Return (p, stocks1) =>
      Return ({| users_data := users_data st;
                 stocks_data :=
                   <[symbol := {| current_price := Some p;
                                  history := Some [{| h_time := now; h_price := p |}];
                                  percent_change := Some (Qc_of_Z 0) |}]> stocks1 |},
              StockAdded symbol p)
  end.

(** ** Runs of the bot *)

(** The state-changing commands with their inputs. *)
Inductive command :=
| Register (user_id : string)
| Buy (now user_id symbol : string) (shares : Z)
| Sell (now user_id symbol : string) (shares : Z)
| AddStock (quote : option Qc) (rnd : Qc) (now symbol : string) (price : option Qc)
| UpdateStockPrices (c : cycle).

Definition run_command (hash : string → Z) (c : command) (st : bot_state)
  : bot_state :=
  match c with
  | Register user_id => (register user_id st).1
  | Buy now user_id symbol shares => (buy now user_id symbol shares st).1
  | Sell now user_id symbol shares => (sell now user_id symbol shares st).1
  | AddStock quote rnd now symbol price =>
      match add_stock hash quote rnd now symbol price st with
      | Return (st', _) => st'
      | Raise _ => st
      end
  | UpdateStockPrices c =>
      {| users_data := users_data st;
         stocks_data := update_stock_prices hash c (stocks_data st) |}
  end.

Definition run (hash : string → Z) (cs : list command) (st : bot_state)
  : bot_state :=
  foldl (λ st c, run_command hash c st) st cs.









(** The empty state the process starts with. *)
Definition initial_state : bot_state :=
  {| users_data := ∅; stocks_data := ∅ |}.

(** ** Persistence store *)

(** [json.dump] and [json.load] of the standard library, for the values of
    type [A] and file contents of type [text]; [json_load] is [None] where the
    library raises. *)
Class Json (text A : Type) := {
  json_dump : A → text;
  json_load : text → option A
}.

(** The codec reads back what it wrote. *)
Definition lossless (text A : Type) `{Json text A} : Prop :=
  ∀ v : A, json_load (json_dump v) = Some v.

(** The two data files; [None] is a file that does not exist. *)
Record disk (text : Type) := {
  users_file : option text;
  stocks_file : option text
}.
Arguments users_file {text} d.
Arguments stocks_file {text} d.

(** Where one call of [save_data] fails, if it does.  Each file is written by
    [with open(path, 'w') as f: json.dump(data, f)]: the [open] can fail, and
    then the file is not touched; once it has succeeded the file is empty,
    and a failure while the dump is written or flushed leaves in the file
    what had reached it, [written], which may be nothing at all. *)
Inductive io_fault (text : Type) :=
| NoFault
| UsersFileFails
| UsersWriteFails (written : text)
| StocksFileFails
| StocksWriteFails (written : text).
Arguments NoFault {text}.
Arguments UsersFileFails {text}.
Arguments UsersWriteFails {text} written.
Arguments StocksFileFails {text}.
Arguments StocksWriteFails {text} written.

(** [save_data]: the users file is opened and written, then the stocks file;
    nothing is caught, so a failure ends the call with its exception and
    leaves the files as they are at that moment. *)
Definition save_data {text} `{Json text (gmap string account)}
    `{Json text (gmap string stock)}
    (fault : io_fault text) (st : bot_state) (d : disk text)
  : disk text * result unit :=
  match fault with
  | UsersFileFails => (d, Raise OSError)
  | UsersWriteFails written =>
      ({| users_file := Some written; stocks_file := stocks_file d |},
       Raise OSError)
  | _ =>
      let d1 := {| users_file := Some (json_dump (users_data st));
                   stocks_file := stocks_file d |} in
      match fault with
      | StocksFileFails => (d1, Raise OSError)
      | StocksWriteFails written =>
          ({| users_file := users_file d1; stocks_file := Some written |},
           Raise OSError)
      | _ =>
          ({| users_file := users_file d1;
              stocks_file := Some (json_dump (stocks_data st)) |},
           Return ())
      end
  end.

(** [load_data]: each file that exists replaces its dictionary; a file that
    cannot be decoded resets the dictionary to the empty one. *)
Definition load_data {text} `{Json text (gmap string account)}
    `{Json text (gmap string stock)}
    (d : disk text) (st : bot_state) : bot_state :=
  {| users_data :=
       match users_file d with
       | None => users_data st
       | Some t => default ∅ (json_load t)
       end;
     stocks_data :=
       match stocks_file d with
       | None => stocks_data st
       | Some t => default ∅ (json_load t)
       end |}.

(** The process: the dictionaries in memory and the files. *)
Record world (text : Type) := {
  mem : bot_state;
  files : disk text
}.
Arguments mem {text} w.
Arguments files {text} w.

(** How a command ends: with its last message, or with an exception that
    leaves the command handler. *)
Inductive outcome :=
| Sent (r : reply)
| Failed (e : exn).

(** The tail shared by the mutating commands: [save_data()], then the
    message. *)
Definition save_then_send {text} `{Json text (gmap string account)}
    `{Json text (gmap string stock)}
    (fault : io_fault text) (st : bot_state) (r : reply) (d : disk text)
  : world text * outcome :=
  let '(d', saved) := save_data fault st d in
  ({| mem := st; files := d' |},
   match saved with
   | Return _ => Sent r
   | Raise e => Failed e
   end).

(** The [buy] command as a whole: the validation failures answer without
    saving, a purchase is saved before the embed is sent. *)
Definition buy_command {text} `{Json text (gmap string account)}
    `{Json text (gmap string stock)}
    (fault : io_fault text) (now user_id symbol : string) (shares : Z)
    (w : world text) : world text * outcome :=
  let '(st', r) := buy now user_id symbol shares (mem w) in
  match r with
  | PurchaseSuccessful _ _ _ _ _ => save_then_send fault st' r (files w)
  | _ => ({| mem := st'; files := files w |}, Sent r)
  end.

(** The [sell] command as a whole. *)
Definition sell_command {text} `{Json text (gmap string account)}
    `{Json text (gmap string stock)}
    (fault : io_fault text) (now user_id symbol : string) (shares : Z)
    (w : world text) : world text * outcome :=
  let '(st', r) := sell now user_id symbol shares (mem w) in
  match r with
  | SaleSuccessful _ _ _ _ _ => save_then_send fault st' r (files w)
  | _ => ({| mem := st'; files := files w |}, Sent r)
  end.

(** A file content that is the document itself: the codec used to run the
    persistence functions on examples. *)
Inductive document :=
| UsersDoc (users : gmap string account)
| StocksDoc (stocks : gmap string stock).

#[export] Instance document_users : Json document (gmap string account) := {
  json_dump := UsersDoc;
  json_load t := match t with UsersDoc u => Some u | StocksDoc _ => None end
}.

#[export] Instance document_stocks : Json document (gmap string stock) := {
  json_dump := StocksDoc;
  json_load t := match t with StocksDoc s => Some s | UsersDoc _ => None end
}.

(** ** Start-up and the other commands with their saving *)

(** [DEFAULT_STOCK_SYMBOLS] *)
Definition DEFAULT_STOCK_SYMBOLS : list string :=
  ["AAPL"; "MSFT"; "GOOGL"; "AMZN"; "META"; "TSLA"; "NVDA"; "JPM"; "V"; "WMT"].

(** The record that [on_ready] and [add_stock] write for a symbol. *)
Definition new_stock (now : string) (price : Qc) : stock :=
  {| current_price := Some price;
     history := Some [{| h_time := now; h_price := price |}];
     percent_change := Some (Qc_of_Z 0) |}.

(** One iteration of the seeding loop of [on_ready]: a default symbol that is
    not tracked gets the mock price and a fresh record; an exception of the
    body is logged and the symbol is skipped. *)
Definition seed_default (hash : string → Z) (rnd : Qc) (clock : string → string)
    (stocks : gmap string stock) (symbol : string) : gmap string stock :=
  match stocks !! symbol with
  | Some _ => stocks
  | None =>
      match generate_mock_price hash rnd symbol stocks with
      | Return (price, stocks1) =>
          <[symbol := new_stock (clock symbol) price]> stocks1
      | Raise _ => stocks
      end
  end.

(** [on_ready]: the data files are loaded, the default symbols are seeded and,
    the list of defaults being non-empty, everything is saved.  The refresh
    task that is started last is not part of this function. *)
Definition on_ready {text} `{Json text (gmap string account)}
    `{Json text (gmap string stock)}
    (fault : io_fault text) (hash : string → Z) (rnd : Qc) (clock : string → string)
    (w : world text) : world text * result unit :=
  let st0 := load_data (files w) (mem w) in
  let st1 :=
    {| users_data := users_data st0;
       stocks_data :=
         foldl (seed_default hash rnd clock) (stocks_data st0)
           DEFAULT_STOCK_SYMBOLS |} in
  match DEFAULT_STOCK_SYMBOLS with
  | [] => ({| mem := st1; files := files w |}, Return ())
  | _ :: _ =>
      let '(d', saved) := save_data fault st1 (files w) in
      ({| mem := st1; files := d' |}, saved)
  end.

(** The [register] command as a whole. *)
Definition register_command {text} `{Json text (gmap string account)}
    `{Json text (gmap string stock)}
    (fault : io_fault text) (user_id : string) (w : world text)
  : world text * outcome :=
  let '(st', r) := register user_id (mem w) in
  match r with
  | Welcome _ => save_then_send fault st' r (files w)
  | _ => ({| mem := st'; files := files w |}, Sent r)
  end.

(** The [add_stock] command as a whole: an exception of the pricing leaves the
    command before anything is stored or saved. *)
Definition add_stock_command {text} `{Json text (gmap string account)}
    `{Json text (gmap string stock)}
    (fault : io_fault text) (hash : string → Z) (quote : option Qc) (rnd : Qc)
    (now symbol : string) (price : option Qc) (w : world text)
  : world text * outcome :=
  match add_stock hash quote rnd now symbol price (mem w) with
  | Raise e => (w, Failed e)
  | Return (st', r) => save_then_send fault st' r (files w)
  end.

(** The body of the [update_stock_prices] task as a whole: nothing happens on
    an empty catalog, otherwise the loop runs and the result is saved. *)
Definition update_command {text} `{Json text (gmap string account)}
    `{Json text (gmap string stock)}
    (fault : io_fault text) (hash : string → Z) (c : cycle) (w : world text)
  : world text * result unit :=
  if decide (stocks_data (mem w) = ∅) then (w, Return ())
  else
    let st' := {| users_data := users_data (mem w);
                  stocks_data := update_stock_prices hash c (stocks_data (mem w)) |} in
    let '(d', saved) := save_data fault st' (files w) in
    ({| mem := st'; files := d' |}, saved).

(** A run of whole commands, each with the fate of its save. *)
Definition step_world {text} `{Json text (gmap string account)}
    `{Json text (gmap string stock)}
    (hash : string → Z) (w : world text) (fc : io_fault text * command) : world text :=
  match fc.2 with
  | Register user_id => (register_command fc.1 user_id w).1
  | Buy now user_id symbol shares =>
      (buy_command fc.1 now user_id symbol shares w).1
  | Sell now user_id symbol shares =>
      (sell_command fc.1 now user_id symbol shares w).1
  | AddStock quote rnd now symbol price =>
      (add_stock_command fc.1 hash quote rnd now symbol price w).1
  | UpdateStockPrices c => (update_command fc.1 hash c w).1
  end.

Definition run_world {text} `{Json text (gmap string account)}
    `{Json text (gmap string stock)}
    (hash : string → Z) (fcs : list (io_fault text * command)) (w : world text)
  : world text :=
  foldl (step_world hash) w fcs.

(** ** Valuation *)

(** The loop of [balance] and [leaderboard] over a portfolio: a holding counts
    at the current price when its symbol is tracked and its record has a
    price, and not at all otherwise. *)
Definition add_position (stocks : gmap string stock) (symbol : string)
    (shares : Z) (portfolio_value : Qc) : Qc :=
  match stocks !! symbol with
  | Some rec =>
      match current_price rec with
      | Some price => (portfolio_value + times_shares price shares)%Qc
      | None => portfolio_value
      end
  | None => portfolio_value
  end.

Definition portfolio_value (stocks : gmap string stock)
    (pf : gmap string Z) : Qc :=
  map_fold (add_position stocks) 0%Qc pf.









(** ** The transaction log read back *)

(** The shares of [symbol] that a log accounts for: bought minus sold. *)
Definition signed_shares (symbol : string) (tx : transaction) : Z :=
  if decide (tx_symbol tx = symbol)
  then match tx_type tx with
       | TxBuy => tx_shares tx
       | TxSell => - tx_shares tx
       end
  else 0.

Definition net_shares (symbol : string) (txs : list transaction) : Z :=
  foldr (λ tx total, signed_shares symbol tx + total) 0 txs.

(** ** Company information *)

(** The cut of [stock_info] on a long description: beyond 1024 characters the
    first 1021 are kept and three dots appended. *)
Definition truncate_description (description : string) : string :=
  if (1024 <? String.length description)%nat
  then substring 0 1021 description +:+ "..."
  else description.

(** ** What runs keep true *)

(** The portfolio of an account agrees with its log. *)
Definition reconciled (acc : account) : Prop :=
  ∀ symbol : string,
    default 0 (portfolio acc !! symbol) = net_shares symbol (transactions acc).



(** A complete stock record: a price, a percent change, and a history of at
    most 24 entries that ends with the current price. *)
Definition record_complete (rec : stock) : Prop :=
  ∃ (p : Qc) (h : list history_entry) (pc : Qc),
    current_price rec = Some p
    ∧ history rec = Some h
    ∧ percent_change rec = Some pc
    ∧ (length h ≤ 24)%nat
    ∧ h_price <$> last h = Some p.

Definition catalog_complete (stocks : gmap string stock) : Prop :=
  ∀ (s : string) (rec : stock), stocks !! s = Some rec → record_complete rec.

(** ** The orders in Python's own arithmetic *)

(** The definitions above give every amount of money its exact value.  The
    conditions under which an order goes through, and whether it ends with a
    message at all, depend on how Python computes: [price * shares] rounds
    when one operand is a [float], and converting an [int] to a [float] (for
    an operation with a [float], or to format it with [:,.2f]) raises
    [OverflowError] when the [int] is too large.  Module [Py] embeds
    [register], [buy] and [sell] again over Python's two kinds of numbers,
    with binary64 arithmetic as [SpecFloat] specifies it. *)
Module Py.

(** A Python number: an [int], which is unbounded, or a [float]. *)
Inductive number :=
| PyInt (n : Z)
| PyFloat (x : spec_float).

(** The format of a Python [float]: binary64. *)
Definition prec : Z := 53.
Definition emax : Z := 1024.

(** [float(n)] is the binary64 value nearest to [n], ties to even; the first
    [n] for which this would be [2 ^ 1024] is the one half-way between the
    largest finite [float] and [2 ^ 1024]. *)
Definition FLOAT_OVERFLOW : Z := 2 ^ 1024 - 2 ^ 970.

Definition float_of_int (n : Z) : result spec_float :=
  if FLOAT_OVERFLOW <=? Z.abs n then Raise OverflowError
  else Return (binary_normalize prec emax n 0 false).

(** The conversion applied to the operand of a [float] operation and to the
    argument of the format [:,.2f]. *)
Definition float_of (a : number) : result spec_float :=
  match a with
  | PyInt n => float_of_int n
  | PyFloat x => Return x
  end.

(** A binary operator on two numbers: exact on two [int]s, otherwise both
    operands are taken as [float]s. *)
Definition arith (on_int : Z → Z → Z)
    (on_float : spec_float → spec_float → spec_float) (a b : number)
  : result number :=
  match a, b with
  | PyInt m, PyInt n => Return (PyInt (on_int m n))
  | _, _ =>
      match float_of a with
      | Raise e => Raise e
      | Return x =>
          match float_of b with
          | Raise e => Raise e
          | Return y => Return (PyFloat (on_float x y))
          end
      end
  end.

(** [a * b], [a + b] and [a - b] *)
Definition mul : number → number → result number :=
  arith Z.mul (SFmul prec emax).
Definition add : number → number → result number :=
  arith Z.add (SFadd prec emax).
Definition sub : number → number → result number :=
  arith Z.sub (SFsub prec emax).

(** The order between a [float] and an [int], which Python decides on their
    exact values, without converting the [int]; there is none with NaN. *)
Definition compare_float_int (x : spec_float) (n : Z) : option comparison :=
  match x with
  | S754_nan => None
  | S754_infinity s => Some (if s then Lt else Gt)
  | S754_zero _ => Some (0 ?= n)
  | S754_finite s m e =>
      let v := cond_Zopp s (Z.pos m) in
      Some (if 0 <=? e then v * 2 ^ e ?= n else v ?= n * 2 ^ (- e))
  end.

(** [a < b] *)
Definition lt (a b : number) : bool :=
  match a, b with
  | PyInt m, PyInt n => m <? n
  | PyFloat x, PyFloat y => SFltb x y
  | PyFloat x, PyInt n =>
      match compare_float_int x n with Some Lt => true | _ => false end
  | PyInt m, PyFloat y =>
      match compare_float_int y m with Some Gt => true | _ => false end
  end.

(** The data model, with Python numbers for the amounts. *)
Record transaction := {
  tx_type : tx_kind;
  tx_symbol : string;
  tx_shares : Z;
  tx_price : number;
  tx_total : number;
  tx_timestamp : string
}.

Record account := {
  balance : number;
  portfolio : gmap string Z;
  transactions : list transaction
}.

Record history_entry := {
  h_time : string;
  h_price : number
}.

Record stock := {
  current_price : option number;
  history : option (list history_entry);
  percent_change : option number
}.

Record bot_state := {
  users_data : gmap string account;
  stocks_data : gmap string stock
}.

(** The messages of the three commands. *)
Inductive reply :=
| AlreadyRegistered
| Welcome (starting_balance : number)
| NotRegistered
| NotTracked (symbol : string)
| AtLeastOneShare
| NotEnoughMoney (cost bal : number)
| NotEnoughShares (owned : Z) (symbol : string)
| PurchaseSuccessful (symbol : string) (shares : Z)
    (price total new_balance : number)
| SaleSuccessful (symbol : string) (shares : Z)
    (price total new_balance : number).

(** [DEFAULT_STARTING_BALANCE = 10000.0], which is [0x1.388p+13]. *)
Definition DEFAULT_STARTING_BALANCE : number :=
  PyFloat (S754_finite false 5497558138880000 (-39)).

(** [stocks_data[symbol].get("current_price", 0)] *)
Definition get_current_price (rec : stock) : number :=
  default (PyInt 0) (current_price rec).

(** A message that interpolates [x] with [:,.2f]: the formatting converts an
    [int] to a [float] first, and the message exists only if that returns. *)
Definition formatting (x : number) (message : result reply) : result reply :=
  match float_of x with
  | Raise e => Raise e
  | Return _ => message
  end.

(** [x] can be formatted with [:,.2f]. *)
Definition formats (x : number) : Prop := ∃ f, float_of x = Return f.

(** [register], [save_data] having returned where it is called. *)
Definition register (user_id : string) (st : bot_state)
  : bot_state * result reply :=
  match users_data st !! user_id with
  | Some _ => (st, Return AlreadyRegistered)
  | None =>
      ({| users_data :=
            <[user_id := {| balance := DEFAULT_STARTING_BALANCE;
                            portfolio := ∅;
                            transactions := [] |}]> (users_data st);
          stocks_data := stocks_data st |},
       formatting DEFAULT_STARTING_BALANCE
         (Return (Welcome DEFAULT_STARTING_BALANCE)))
  end.

(** [buy]: the state that the command leaves in memory and, [save_data]
    having returned where it is called, how the command ends: with the
    message it sends, or with the exception of an operation on numbers.  The
    product and the debit are evaluated before anything is stored; the embed
    of a purchase is built after the purchase is stored. *)
Definition buy (now user_id symbol : string) (shares : Z) (st : bot_state)
  : bot_state * result reply :=
  let symbol := upper symbol in
  match users_data st !! user_id with
  | None => (st, Return NotRegistered)
  | Some acc =>
      match stocks_data st !! symbol with
      | None => (st, Return (NotTracked symbol))
      | Some rec =>
          if shares <=? 0 then (st, Return AtLeastOneShare)
          else
            let price := get_current_price rec in
            match mul price (PyInt shares) with
            | Raise e => (st, Raise e)
            | Return total_cost =>
                if lt (balance acc) total_cost
                then
                  (st,
                   formatting total_cost
                     (formatting (balance acc)
                        (Return (NotEnoughMoney total_cost (balance acc)))))
                else
                  match sub (balance acc) total_cost with
                  | Raise e => (st, Raise e)
                  | Return balance' =>
                      let portfolio0 :=
                        match portfolio acc !! symbol with
                        | None => <[symbol := 0]> (portfolio acc)
                        | Some _ => portfolio acc
                        end in
                      let portfolio' :=
                        <[symbol := default 0 (portfolio0 !! symbol) + shares]>
                          portfolio0 in
                      let transaction :=
                        {| tx_type := TxBuy; tx_symbol := symbol;
                           tx_shares := shares; tx_price := price;
                           tx_total := total_cost; tx_timestamp := now |} in
                      let acc' :=
                        {| balance := balance';
                           portfolio := portfolio';
                           transactions := transactions acc ++ [transaction] |} in
                      ({| users_data := <[user_id := acc']> (users_data st);
                          stocks_data := stocks_data st |},
                       formatting price
                         (formatting total_cost
                            (formatting balance'
                               (Return (PurchaseSuccessful symbol shares price
                                          total_cost balance')))))
                  end
            end
      end
  end.

(** [sell], in the same way. *)
Definition sell (now user_id symbol : string) (shares : Z) (st : bot_state)
  : bot_state * result reply :=
  let symbol := upper symbol in
  match users_data st !! user_id with
  | None => (st, Return NotRegistered)
  | Some acc =>
      match stocks_data st !! symbol with
      | None => (st, Return (NotTracked symbol))
      | Some rec =>
          if shares <=? 0 then (st, Return AtLeastOneShare)
          else
            let too_few :=
              match portfolio acc !! symbol with
              | None => true
              | Some held => held <? shares
              end in
            if too_few
            then
              let owned := default 0 (portfolio acc !! symbol) in
              (st, Return (NotEnoughShares owned symbol))
            else
              let price := get_current_price rec in
              match mul price (PyInt shares) with
              | Raise e => (st, Raise e)
              | Return total_value =>
                  match add (balance acc) total_value with
                  | Raise e => (st, Raise e)
                  | Return balance' =>
                      let portfolio1 :=
                        <[symbol := default 0 (portfolio acc !! symbol) - shares]>
                          (portfolio acc) in
                      let portfolio' :=
                        if decide (portfolio1 !! symbol = Some 0)
                        then delete symbol portfolio1
                        else portfolio1 in
                      let transaction :=
                        {| tx_type := TxSell; tx_symbol := symbol;
                           tx_shares := shares; tx_price := price;
                           tx_total := total_value; tx_timestamp := now |} in
                      let acc' :=
                        {| balance := balance';
                           portfolio := portfolio';
                           transactions := transactions acc ++ [transaction] |} in
                      ({| users_data := <[user_id := acc']> (users_data st);
                          stocks_data := stocks_data st |},
                       formatting price
                         (formatting total_value
                            (formatting balance'
                               (Return (SaleSuccessful symbol shares price
                                          total_value balance')))))
                  end
              end
      end
  end.

(** Every balance is a [float]. *)
Definition float_balances (st : bot_state) : Prop :=
  ∀ (user_id : string) (acc : account),
    users_data st !! user_id = Some acc → ∃ b, balance acc = PyFloat b.

(** Some [float]s: [0.0], [1.0], [100.0] ([0x1.9p+6]), [150.0]
    ([0x1.2cp+7]), [1500.0] ([0x1.77p+10]), [8500.0] ([0x1.09ap+13]),
    [-20000.0], [2.0 ** 53] and [-100.0]. *)
Definition f0 : spec_float := S754_zero false.
Definition f1 : spec_float := S754_finite false 4503599627370496 (-52).
Definition f100 : spec_float := S754_finite false 7036874417766400 (-46).
Definition f150 : spec_float := S754_finite false 5277655813324800 (-45).
Definition f1500 : spec_float := S754_finite false 6597069766656000 (-42).
Definition f8500 : spec_float := S754_finite false 4672924418048000 (-39).
Definition f_minus_20000 : spec_float :=
  S754_finite true 5497558138880000 (-38).
Definition f_2_53 : spec_float := S754_finite false 4503599627370496 1.
Definition f_minus_100 : spec_float :=
  S754_finite true 7036874417766400 (-46).

(** A catalog with one stock at the given price, as [add_stock] writes its
    record, and a ledger with the one account ["u1"]. *)
Definition priced (symbol : string) (price : number) : gmap string stock :=
  {[ symbol := {| current_price := Some price;
                  history := Some [{| h_time := "t0"; h_price := price |}];
                  percent_change := Some (PyFloat f0) |} ]}.

Definition holding (bal : number) (shares : gmap string Z) : account :=
  {| balance := bal; portfolio := shares; transactions := [] |}.

Definition one_account (acc : account) (stocks : gmap string stock)
  : bot_state :=
  {| users_data := {[ "u1" := acc ]}; stocks_data := stocks |}.

(** A catalog with a negative price, as [add_stock] accepts one, and a price
    of 0. *)
Definition overdraw_catalog : gmap string stock :=
  priced "DOWN" (PyFloat f_minus_100) ∪ priced "UP" (PyFloat f100)
  ∪ priced "ZZ" (PyInt 0).

End Py.

(** ** Example data *)

Definition AAPL_150 : stock :=
  {| current_price := Some (Qc_of_Z 150);
     history := Some [{| h_time := "t0"; h_price := Qc_of_Z 150 |}];
     percent_change := Some (Qc_of_Z 0) |}.

Definition fresh_account : account :=
  {| balance := DEFAULT_STARTING_BALANCE; portfolio := ∅; transactions := [] |}.

(** One registered user and one stock at 150. *)
Definition example_state : bot_state :=
  {| users_data := {[ "u1" := fresh_account ]};
     stocks_data := {[ "AAPL" := AAPL_150 ]} |}.

(** The account after buying 10 shares at 150. *)
Definition holder_account : account :=
  {| balance := Qc_of_Z 8500;
     portfolio := {[ "AAPL" := 10 ]};
     transactions :=
       [{| tx_type := TxBuy; tx_symbol := "AAPL"; tx_shares := 10;
           tx_price := Qc_of_Z 150; tx_total := Qc_of_Z 1500;
           tx_timestamp := "t1" |}] |}.

Definition holder_state : bot_state :=
  {| users_data := {[ "u1" := holder_account ]};
     stocks_data := {[ "AAPL" := AAPL_150 ]} |}.

(** A cycle in which every quote is 165, and one without quotes. *)
Definition quoted_165 : cycle :=
  {| quote_of := λ _, Some (Qc_of_Z 165);
     rnd_of := λ _, Q2Qc (1 # 2);
     clock_of := λ _, "t2" |}.

Definition unquoted (tick : string) : cycle :=
  {| quote_of := λ _, None;
     rnd_of := λ _, Q2Qc (9 # 10);
     clock_of := λ _, tick |}.

(** Thirty cycles with a quote each. *)
Definition thirty_cycles : list cycle := replicate 30 quoted_165.

(** A run from the empty state: a stock is added at 150, a user registers and
    buys 10 shares, a refresh moves the price to 165, the user sells 4. *)
Definition scenario : list command :=
  [ AddStock None (Q2Qc (1 # 2)) "t0" "aapl" (Some (Qc_of_Z 150));
    Register "u1";
    Buy "t1" "u1" "aapl" 10;
    UpdateStockPrices quoted_165;
    Sell "t3" "u1" "aapl" 4 ].

Definition scenario_account : account :=
  {| balance :=
       (DEFAULT_STARTING_BALANCE - times_shares (Qc_of_Z 150) 10
        + times_shares (Qc_of_Z 165) 4)%Qc;
     portfolio := {[ "AAPL" := 6 ]};
     transactions :=
       [ {| tx_type := TxBuy; tx_symbol := "AAPL"; tx_shares := 10;
            tx_price := Qc_of_Z 150;
            tx_total := times_shares (Qc_of_Z 150) 10;
            tx_timestamp := "t1" |};
         {| tx_type := TxSell; tx_symbol := "AAPL"; tx_shares := 4;
            tx_price := Qc_of_Z 165;
            tx_total := times_shares (Qc_of_Z 165) 4;
            tx_timestamp := "t3" |} ] |}.

(** Both files as [save_data] leaves them when nothing fails. *)
Definition saved {text} `{Json text (gmap string account)}
    `{Json text (gmap string stock)} (st : bot_state) : disk text :=
  {| users_file := Some (json_dump (users_data st));
     stocks_file := Some (json_dump (stocks_data st)) |}.

(** A process whose files hold [example_state] and whose memory has since
    seen a refresh to 165, the saving of which had failed. *)
Definition refreshed_state : bot_state :=
  {| users_data := users_data example_state;
     stocks_data :=
       update_stock_prices (λ _, 3000) quoted_165 (stocks_data example_state) |}.

Definition stale_world : world document :=
  {| mem := refreshed_state; files := saved example_state |}.


(** A record without a price, as only a hand-written data file can hold. *)
Definition priceless : stock :=
  {| current_price := None; history := Some []; percent_change := None |}.

(** A run in which a stock is added without a price while no quote is
    available, under a hash that is a multiple of 1000. *)
Definition free_run : list command :=
  [ AddStock None (Q2Qc (1 # 2)) "t0" "zz" None;
    UpdateStockPrices (unquoted "t1");
    Register "u1";
    Buy "t2" "u1" "zz" 5 ].

(** A cycle in which only AAPL gets a quote. *)
Definition only_AAPL_quoted : cycle :=
  {| quote_of := λ s, if decide (s = "AAPL") then Some (Qc_of_Z 165) else None;
     rnd_of := λ _, Q2Qc (1 # 2);
     clock_of := λ _, "t2" |}.

(** A catalog with a complete record and one without a price. *)
Definition mixed_catalog : gmap string stock :=
  <["XYZ" := priceless]> {[ "AAPL" := AAPL_150 ]}.

(** The files hold what the memory holds. *)
Definition in_sync {text} `{Json text (gmap string account)}
    `{Json text (gmap string stock)} (w : world text) : Prop :=
  files w = saved (mem w).

(** * Properties *)

(** ** Arithmetic of money amounts *)



Lemma Qc_of_Z_0 : Qc_of_Z 0 = 0%Qc.
Proof. apply Z2Qc_inj_0. Qed.



(** ** Account ledger: the successful and the refused orders *)

Lemma buy_portfolio (symbol : string) (shares : Z) (p p0 : gmap string Z) :
  p0 = match p !! symbol with
       | None => <[symbol := 0]> p
       | Some _ => p
       end →
  <[symbol := default 0 (p0 !! symbol) + shares]> p0
  = <[symbol := default 0 (p !! symbol) + shares]> p.
Proof.
  intros ->. destruct (p !! symbol) eqn:E; simpl; [by rewrite E|].
  by rewrite lookup_insert_eq, insert_insert_eq.
Qed.

(** C5. A sell order for more shares than the account owns (it owns 0 of a
    symbol that is not in its portfolio) is refused with the
    insufficient-shares message, which carries the owned count, and leaves
    the whole state as it was. *)
Theorem sell_insufficient_shares (now user_id symbol : string) (shares : Z)
    (st : bot_state) (acc : account) (rec : stock) :
  users_data st !! user_id = Some acc →
  stocks_data st !! upper symbol = Some rec →
  1 ≤ shares →
  default 0 (portfolio acc !! upper symbol) < shares →
  sell now user_id symbol shares st
  = (st, NotEnoughShares (default 0 (portfolio acc !! upper symbol))
           (upper symbol)).
Proof.
  intros Hu Hs Hn Hlt. unfold sell. rewrite Hu, Hs.
  destruct (Z.leb_spec shares 0) as [?|_]; [lia|].
  destruct (portfolio acc !! upper symbol) as [held|]; simpl in *; [|done].
  by destruct (Z.ltb_spec held shares) as [_|?]; [|lia].
Qed.

Lemma sell_insufficient_shares_witness :
  sell "t3" "u1" "aapl" 11 holder_state
  = (holder_state, NotEnoughShares 10 "AAPL").
Proof.
  refine (sell_insufficient_shares "t3" "u1" "aapl" 11 holder_state
            holder_account AAPL_150 _ _ _ _).
  - reflexivity.
  - reflexivity.
  - lia.
  - by vm_compute.
Defined.

(** ** Python's numbers: the conversion of an [int] to a [float] *)

Lemma Zdigits2_log2 (p : positive) :
  Zdigits2 (Z.pos p) = Z.log2 (Z.pos p) + 1.
Proof.
  assert (H : ∀ q, Z.pos (digits2_pos q) = Z.pos (Pos.size q)).
  { induction q; simpl; [| |done]; rewrite !Pos2Z.inj_succ; lia. }
  simpl. destruct p; simpl; rewrite ?Pos2Z.inj_succ, ?H; lia.
Qed.

Lemma Zdigits2_unique (m d : Z) :
  2 ^ (d - 1) ≤ m < 2 ^ d → 1 ≤ d → Zdigits2 m = d.
Proof.
  intros [H1 H2] Hd.
  assert (0 < m)
    by (assert (0 < 2 ^ (d - 1)) by (apply Z.pow_pos_nonneg; lia); lia).
  destruct m as [|p|p]; try lia.
  rewrite Zdigits2_log2.
  assert (E : Z.log2 (Z.pos p) = d - 1).
  { apply Z.log2_unique; [lia|]. replace (Z.succ (d - 1)) with d by lia. lia. }
  lia.
Qed.

Lemma Zdigits2_spec (p : positive) :
  2 ^ (Zdigits2 (Z.pos p) - 1) ≤ Z.pos p < 2 ^ Zdigits2 (Z.pos p)
  ∧ 1 ≤ Zdigits2 (Z.pos p).
Proof.
  rewrite Zdigits2_log2.
  pose proof (Z.log2_spec (Z.pos p) ltac:(lia)) as H.
  pose proof (Z.log2_nonneg (Z.pos p)).
  replace (Z.log2 (Z.pos p) + 1 - 1) with (Z.log2 (Z.pos p)) by lia.
  replace (Z.succ (Z.log2 (Z.pos p))) with (Z.log2 (Z.pos p) + 1) in H by lia.
  lia.
Qed.

Lemma iter_pos_iter {A} (f : A → A) (p : positive) (x : A) :
  SpecFloat.iter_pos f p x = Pos.iter f x p.
Proof.
  revert x. induction p as [p IH|p IH|]; intros x; simpl; [|by rewrite !IH|done].
  rewrite !IH. by rewrite <- !Pos.iter_swap.
Qed.

(** One step of the right shift halves the mantissa and remembers its last
    bit. *)
Lemma shr_1_m (x : shr_record) :
  0 ≤ shr_m x →
  shr_m (shr_1 x) = shr_m x / 2 ∧ shr_r (shr_1 x) = Z.odd (shr_m x).
Proof.
  destruct x as [m r s]. simpl. intros Hm.
  destruct m as [|[p|p|]|p]; simpl; try lia; split; try done.
  - rewrite Pos2Z.inj_xI. apply (Z.div_unique _ 2 _ 1); lia.
  - rewrite Pos2Z.inj_xO. apply (Z.div_unique _ 2 _ 0); lia.
Qed.

Lemma shr_iter (k : positive) (x : shr_record) :
  0 ≤ shr_m x →
  shr_m (SpecFloat.iter_pos shr_1 k x) = shr_m x / 2 ^ Z.pos k
  ∧ shr_r (SpecFloat.iter_pos shr_1 k x)
    = Z.odd (shr_m x / 2 ^ (Z.pos k - 1)).
Proof.
  intros Hm. rewrite iter_pos_iter. induction k as [|k IH] using Pos.peano_ind.
  - simpl Pos.iter. destruct (shr_1_m x Hm) as [-> ->].
    split; [done|]. by rewrite Z.sub_diag, Z.pow_0_r, Z.div_1_r.
  - rewrite Pos.iter_succ. destruct IH as [IHm IHr].
    assert (0 ≤ shr_m (Pos.iter shr_1 x k)).
    { rewrite IHm. apply Z.div_pos; [done|]. apply Z.pow_pos_nonneg; lia. }
    destruct (shr_1_m (Pos.iter shr_1 x k)) as [-> ->]; [done|].
    rewrite IHm. rewrite Pos2Z.inj_succ. split.
    + rewrite Z.pow_succ_r by lia.
      rewrite Z.div_div by (try apply Z.pow_pos_nonneg; lia).
      f_equal. lia.
    + f_equal. f_equal. f_equal. lia.
Qed.

Lemma digits2_pos_iter_xO (m k : positive) :
  Z.pos (digits2_pos (Pos.iter xO m k)) = Z.pos (digits2_pos m) + Z.pos k.
Proof.
  induction k as [|k IH] using Pos.peano_ind.
  - simpl. lia.
  - rewrite Pos.iter_succ. simpl. rewrite Pos2Z.inj_succ, IH. lia.
Qed.

Lemma round_nearest_even_bounds (x : shr_record) :
  shr_m x ≤ round_nearest_even (shr_m x) (loc_of_shr_record x) ≤ shr_m x + 1
  ∧ (shr_r x = false →
     round_nearest_even (shr_m x) (loc_of_shr_record x) = shr_m x).
Proof.
  destruct x as [m [|] [|]]; simpl; try (split; [lia|done]).
  destruct (Z.even m); split; (lia || done).
Qed.

Lemma shr_fexp_keep (m e d : Z) (l : location) :
  Zdigits2 m = d →
  d + e - 53 ≤ e →
  -1074 ≤ e →
  shr_fexp 53 1024 m e l = (shr_record_of_loc m l, e).
Proof.
  intros Hd H1 H2. unfold shr_fexp, fexp, emin. rewrite Hd.
  destruct (Z.max (d + e - 53) (3 - 1024 - 53) - e) eqn:E; simpl; try done.
  lia.
Qed.

Lemma shr_fexp_shift (m e d : Z) (k : positive) (l : location) :
  Zdigits2 m = d →
  d - 53 = Z.pos k →
  -1074 ≤ e →
  shr_fexp 53 1024 m e l
  = (SpecFloat.iter_pos shr_1 k (shr_record_of_loc m l), e + Z.pos k).
Proof.
  intros Hd H1 H2. unfold shr_fexp, fexp, emin. rewrite Hd.
  replace (Z.max (d + e - 53) (3 - 1024 - 53) - e) with (Z.pos k) by lia.
  done.
Qed.

(** A mantissa of exactly 53 bits with an exponent in range is kept. *)
Lemma binary_round_aux_exact (s : bool) (m : positive) (e : Z) :
  Zdigits2 (Z.pos m) = 53 →
  -1074 ≤ e ≤ 971 →
  binary_round_aux 53 1024 s (Z.pos m) e loc_Exact = S754_finite s m e.
Proof.
  intros Hd He. unfold binary_round_aux.
  rewrite (shr_fexp_keep (Z.pos m) e 53) by (done || lia).
  cbn [shr_record_of_loc shr_m loc_of_shr_record round_nearest_even].
  rewrite (shr_fexp_keep (Z.pos m) e 53) by (done || lia).
  cbn [shr_record_of_loc shr_m].
  destruct (Z.leb_spec e (1024 - 53)); [done|lia].
Qed.

(** Rounding an integer below the overflow bound gives a finite [float]: the
    bound is the first integer whose 53-bit rounding carries into
    [2 ^ 1024]. *)
Lemma binary_round_int (s : bool) (m : positive) :
  Z.pos m < 2 ^ 1024 - 2 ^ 970 →
  ∃ m' e', binary_round 53 1024 s m 0 = S754_finite s m' e'.
Proof.
  intros Hb.
  destruct (Zdigits2_spec m) as [[Hlo Hhi] Hd1].
  assert (Hdig : Zdigits2 (Z.pos m) = Z.pos (digits2_pos m)) by done.
  set (d := Zdigits2 (Z.pos m)) in *.
  assert (Hd : d ≤ 1024).
  { destruct (Z.le_gt_cases d 1024) as [|Hgt]; [done|].
    assert (2 ^ 1024 ≤ 2 ^ (d - 1)) by (apply Z.pow_le_mono_r; lia).
    assert (0 < 2 ^ 970) by (apply Z.pow_pos_nonneg; lia). lia. }
  unfold binary_round, shl_align, fexp, emin. rewrite <- Hdig.
  replace (Z.max (d + 0 - 53) (3 - 1024 - 53)) with (d - 53) by lia.
  replace (d - 53 - 0) with (d - 53) by lia.
  destruct (d - 53) as [|k|k] eqn:Ek.
  - (* exactly 53 bits *)
    rewrite binary_round_aux_exact; [eauto| |lia]. fold d. lia.
  - (* more than 53 bits: the mantissa is shifted right and rounded *)
    assert (Hk : Z.pos k ≤ 971) by lia.
    assert (Hpow : 0 < 2 ^ Z.pos k) by (apply Z.pow_pos_nonneg; lia).
    unfold binary_round_aux.
    rewrite (shr_fexp_shift (Z.pos m) 0 d k) by (done || lia).
    cbn [shr_record_of_loc].
    set (x1 := SpecFloat.iter_pos shr_1 k _).
    destruct (shr_iter k {| shr_m := Z.pos m; shr_r := false; shr_s := false |})
      as [Hm1 Hr1]; [simpl; lia|]. fold x1 in Hm1, Hr1. cbn [shr_m] in Hm1, Hr1.
    assert (Hm1lo : 2 ^ 52 ≤ shr_m x1).
    { rewrite Hm1. apply Z.div_le_lower_bound; [done|].
      rewrite Z.mul_comm, <- Z.pow_add_r by lia.
      replace (52 + Z.pos k) with (d - 1) by lia. done. }
    assert (Hm1hi : shr_m x1 < 2 ^ 53).
    { rewrite Hm1. apply Z.div_lt_upper_bound; [done|].
      rewrite <- Z.pow_add_r by lia.
      replace (Z.pos k + 53) with d by lia. done. }
    destruct (round_nearest_even_bounds x1) as [[Hlo2 Hhi2] Hkeep].
    set (m2 := round_nearest_even (shr_m x1) (loc_of_shr_record x1)) in *.
    destruct (Z.lt_ge_cases m2 (2 ^ 53)) as [Hlt|Hge].
    + rewrite (shr_fexp_keep m2 (0 + Z.pos k) 53);
        [|apply Zdigits2_unique; lia|lia|lia].
      cbn [shr_record_of_loc shr_m].
      destruct m2 as [|p|p]; [lia| |lia].
      destruct (Z.leb_spec (0 + Z.pos k) (1024 - 53)); [eauto|lia].
    + (* the rounding carries: this needs a spare exponent *)
      assert (Em2 : m2 = 2 ^ 53) by lia.
      assert (Em1 : shr_m x1 = 2 ^ 53 - 1) by lia.
      assert (Hr : shr_r x1 = true).
      { destruct (shr_r x1) eqn:E; [done|]. specialize (Hkeep eq_refl). lia. }
      assert (Hd' : d ≤ 1023).
      { destruct (Z.le_gt_cases d 1023) as [|Hgt]; [done|].
        assert (Ek' : Z.pos k = 971) by lia.
        rewrite Ek' in Hm1, Hr1. change (971 - 1) with 970 in Hr1.
        assert (E971 : 2 ^ 971 = 2 * 2 ^ 970) by (by rewrite <- Z.pow_succ_r).
        assert (E1024 : 2 ^ 1024 = 2 ^ 54 * 2 ^ 970)
          by (by rewrite <- Z.pow_add_r).
        assert (HP : 0 < 2 ^ 970) by (apply Z.pow_pos_nonneg; lia).
        pose proof (Z.mul_div_le (Z.pos m) (2 ^ 971) ltac:(lia)) as Hmul.
        rewrite <- Hm1, Em1, E971 in Hmul.
        rewrite E1024 in Hb. set (P := 2 ^ 970) in *.
        assert (Z.pos m `div` P = 2 ^ 54 - 2) as Ediv.
        { symmetry. apply (Z.div_unique _ _ _ (Z.pos m - (2 ^ 54 - 2) * P)); lia. }
        rewrite Ediv in Hr1. rewrite Hr in Hr1. discriminate Hr1. }
      rewrite Em2.
      rewrite (shr_fexp_shift (2 ^ 53) (0 + Z.pos k) 54 1); [|done|done|lia].
      destruct (Z.leb_spec (0 + Z.pos k + 1) (1024 - 53)); [|lia].
      vm_compute shr_m. eauto.
  - (* fewer than 53 bits: the mantissa is shifted left *)
    rewrite <- Ek.
    rewrite binary_round_aux_exact; [eauto| |lia].
    simpl Zdigits2. rewrite digits2_pos_iter_xO. rewrite <- Hdig. lia.
Qed.

(** [float(n)] raises exactly from the bound on, and what it returns is a
    zero or a finite number with the sign of [n]. *)
Lemma float_of_int_overflow (n : Z) :
  Py.FLOAT_OVERFLOW ≤ Z.abs n → Py.float_of_int n = Raise OverflowError.
Proof.
  intros H. unfold Py.float_of_int.
  by destruct (Z.leb_spec Py.FLOAT_OVERFLOW (Z.abs n)); [|lia].
Qed.

Lemma float_of_int_returns (n : Z) :
  Z.abs n < Py.FLOAT_OVERFLOW →
  Py.float_of_int n = Return (binary_normalize 53 1024 n 0 false).
Proof.
  intros H. unfold Py.float_of_int.
  by destruct (Z.leb_spec Py.FLOAT_OVERFLOW (Z.abs n)); [lia|].
Qed.

Lemma float_of_int_bound (n : Z) (f : spec_float) :
  Py.float_of_int n = Return f → Z.abs n < Py.FLOAT_OVERFLOW.
Proof.
  unfold Py.float_of_int.
  by destruct (Z.leb_spec Py.FLOAT_OVERFLOW (Z.abs n)).
Qed.

Lemma float_of_int_finite (n : Z) (f : spec_float) :
  Py.float_of_int n = Return f →
  f = S754_zero false ∨ ∃ m e, f = S754_finite (n <? 0) m e.
Proof.
  intros H. pose proof (float_of_int_bound n f H) as Hb.
  rewrite float_of_int_returns in H by done. injection H as <-.
  unfold Py.FLOAT_OVERFLOW in Hb.
  destruct n as [|m|m]; [by left|right..]; simpl binary_normalize.
  - apply binary_round_int. lia.
  - apply binary_round_int. lia.
Qed.

Lemma float_of_int_smaller (a b : Z) (f : spec_float) :
  Z.abs a ≤ Z.abs b →
  Py.float_of_int b = Return f →
  ∃ g, Py.float_of_int a = Return g.
Proof.
  intros Hab Hb. apply float_of_int_bound in Hb.
  rewrite float_of_int_returns by lia. eauto.
Qed.

(** The bound is tight: the largest finite [float] is returned for the
    integer just below it, and at the bound the rounding is infinite.  The
    named [float]s are the conversions of the integers they stand for. *)
Lemma float_overflow_is_tight :
  Py.float_of_int (Py.FLOAT_OVERFLOW - 1)
  = Return (S754_finite false 9007199254740991 971)
  ∧ binary_normalize 53 1024 Py.FLOAT_OVERFLOW 0 false = S754_infinity false
  ∧ Py.float_of_int (10 ^ 400) = Raise OverflowError.
Proof. split; [|split]; by vm_compute. Qed.

Lemma float_literals :
  Py.float_of_int 0 = Return Py.f0
  ∧ Py.float_of_int 1 = Return Py.f1
  ∧ Py.float_of_int 100 = Return Py.f100
  ∧ Py.float_of_int (-100) = Return Py.f_minus_100
  ∧ Py.float_of_int 150 = Return Py.f150
  ∧ Py.float_of_int 1500 = Return Py.f1500
  ∧ Py.float_of_int 8500 = Return Py.f8500
  ∧ Py.float_of_int (-20000) = Return Py.f_minus_20000
  ∧ Py.float_of_int (2 ^ 53) = Return Py.f_2_53
  ∧ Py.float_of_int (2 ^ 53 + 1) = Return Py.f_2_53
  ∧ Py.float_of_int 10000 = Py.float_of Py.DEFAULT_STARTING_BALANCE.
Proof. split_and!; by vm_compute. Qed.

(** ** Python's numbers: the operators *)

(** An operator with a [float] on its left gives a [float], computed on the
    conversion of its right operand. *)
Lemma arith_float_l (on_int : Z → Z → Z)
    (on_float : spec_float → spec_float → spec_float)
    (x : spec_float) (b r : Py.number) :
  Py.arith on_int on_float (Py.PyFloat x) b = Return r →
  ∃ y, Py.float_of b = Return y ∧ r = Py.PyFloat (on_float x y).
Proof.
  unfold Py.arith. simpl. destruct (Py.float_of b) as [y|e]; [|done].
  intros [= <-]. eauto.
Qed.

Lemma arith_float_l_returns (on_int : Z → Z → Z)
    (on_float : spec_float → spec_float → spec_float)
    (x y : spec_float) (b : Py.number) :
  Py.float_of b = Return y →
  Py.arith on_int on_float (Py.PyFloat x) b
  = Return (Py.PyFloat (on_float x y)).
Proof. intros H. unfold Py.arith. simpl. by rewrite H. Qed.

(** [price * shares]: exact when the price is an [int], and otherwise the
    binary64 product of the price and the converted share count. *)
Lemma mul_shares (price total : Py.number) (shares : Z) :
  Py.mul price (Py.PyInt shares) = Return total →
  match price with
  | Py.PyInt p => total = Py.PyInt (p * shares)
  | Py.PyFloat x =>
      ∃ f, Py.float_of_int shares = Return f
           ∧ total = Py.PyFloat (SFmul 53 1024 x f)
  end.
Proof.
  destruct price as [p|x]; [by intros [= <-]|].
  intros H. by apply arith_float_l in H.
Qed.

(** A price formats when its product with a share count does. *)
Lemma price_formats (price total : Py.number) (shares : Z) (t : spec_float) :
  1 ≤ shares →
  Py.mul price (Py.PyInt shares) = Return total →
  Py.float_of total = Return t →
  ∃ x, Py.float_of price = Return x.
Proof.
  intros Hn Hm Ht. destruct price as [p|x]; [|by eexists].
  apply mul_shares in Hm. subst total. simpl in *.
  apply (float_of_int_smaller p (p * shares) t); [nia|done].
Qed.

(** ** Orders as Python computes them *)

Lemma float_balances_insert (st : Py.bot_state) (user_id : string)
    (acc' : Py.account) (stocks : gmap string Py.stock) (b : spec_float) :
  Py.float_balances st →
  Py.balance acc' = Py.PyFloat b →
  Py.float_balances
    {| Py.users_data := <[user_id := acc']> (Py.users_data st);
       Py.stocks_data := stocks |}.
Proof.
  intros Hst Hb u acc. simpl.
  destruct (decide (user_id = u)) as [->|Hne].
  - rewrite lookup_insert_eq. intros [= <-]. eauto.
  - rewrite lookup_insert_ne by done. apply Hst.
Qed.

(** X24. Every balance that [register], [buy] and [sell] store is a [float]:
    the starting balance is one, and so is what [balance - total] and
    [balance + total] give when the balance is one, whether the total is an
    [int] or a [float].  So from a ledger of [float] balances, such as the
    empty one, the three commands lead to a ledger of [float] balances. *)
Theorem balances_stay_floats (now new_id user_id symbol : string)
    (shares : Z) (st : Py.bot_state) :
  Py.float_balances st →
  Py.float_balances (Py.register new_id st).1
  ∧ Py.float_balances (Py.buy now user_id symbol shares st).1
  ∧ Py.float_balances (Py.sell now user_id symbol shares st).1.
Proof.
  intros Hst. split; [|split].
  - unfold Py.register. destruct (Py.users_data st !! new_id); [done|].
    by eapply float_balances_insert.
  - unfold Py.buy. destruct (Py.users_data st !! user_id) as [acc|] eqn:Hu;
      [|done].
    destruct (Py.stocks_data st !! upper symbol); [|done].
    destruct (shares <=? 0); [done|].
    destruct (Py.mul _ _) as [total|]; [|done].
    destruct (Py.lt _ _); [done|].
    destruct (Py.sub _ _) as [b'|] eqn:Hsub; [|done]. simpl.
    destruct (Hst _ _ Hu) as [b Hb]. rewrite Hb in Hsub.
    apply arith_float_l in Hsub as (y & _ & ->).
    by eapply float_balances_insert.
  - unfold Py.sell. destruct (Py.users_data st !! user_id) as [acc|] eqn:Hu;
      [|done].
    destruct (Py.stocks_data st !! upper symbol); [|done].
    destruct (shares <=? 0); [done|].
    destruct (Py.portfolio acc !! upper symbol) as [held|]; [|done].
    destruct (held <? shares); [done|].
    destruct (Py.mul _ _) as [total|]; [|done].
    destruct (Py.add _ _) as [b'|] eqn:Hadd; [|done]. simpl.
    destruct (Hst _ _ Hu) as [b Hb]. rewrite Hb in Hadd.
    apply arith_float_l in Hadd as (y & _ & ->).
    by eapply float_balances_insert.
Qed.

Lemma balances_stay_floats_witness :
  let st := Py.one_account (Py.holding Py.DEFAULT_STARTING_BALANCE ∅)
              (Py.priced "AAPL" (Py.PyFloat Py.f150)) in
  Py.float_balances (Py.register "u2" st).1
  ∧ Py.float_balances (Py.buy "t1" "u1" "aapl" 10 st).1
  ∧ Py.float_balances (Py.sell "t1" "u1" "aapl" 10 st).1.
Proof.
  refine (balances_stay_floats "t1" "u2" "u1" "aapl" 10
            (Py.one_account (Py.holding Py.DEFAULT_STARTING_BALANCE ∅)
               (Py.priced "AAPL" (Py.PyFloat Py.f150))) _).
  intros u acc. unfold Py.one_account. cbn [Py.users_data].
  rewrite lookup_singleton_Some. intros [_ <-]. by eexists.
Defined.

(** C1, as the code computes.  A buy order of a registered account for a
    tracked symbol, with at least one share, for which Python evaluates
    [total = price * shares] and [balance - total] and finds the balance not
    below [total], succeeds: the balance becomes [balance - total], the
    holding of the symbol grows by [shares] (from 0 when the symbol was not
    held), one [buy] transaction with that price and that total is appended,
    and the embed carries the same amounts.  [total] is the exact product
    when the price is an [int]; when it is a [float], it is the binary64
    product of the price and of [float(shares)].  The balance of the account
    is a [float], as every balance that the commands store is. *)
Theorem buy_executes (now user_id symbol : string) (shares : Z)
    (st : Py.bot_state) (acc : Py.account) (rec : Py.stock)
    (b : spec_float) (total new_balance : Py.number) :
  Py.users_data st !! user_id = Some acc →
  Py.balance acc = Py.PyFloat b →
  Py.stocks_data st !! upper symbol = Some rec →
  1 ≤ shares →
  Py.mul (Py.get_current_price rec) (Py.PyInt shares) = Return total →
  Py.lt (Py.balance acc) total = false →
  Py.sub (Py.balance acc) total = Return new_balance →
  ∃ acc' tx,
    Py.buy now user_id symbol shares st
    = ({| Py.users_data := <[user_id := acc']> (Py.users_data st);
          Py.stocks_data := Py.stocks_data st |},
       Return (Py.PurchaseSuccessful (upper symbol) shares
                 (Py.get_current_price rec) total new_balance))
    ∧ Py.balance acc' = new_balance
    ∧ Py.portfolio acc'
      = <[upper symbol
          := default 0 (Py.portfolio acc !! upper symbol) + shares]>
          (Py.portfolio acc)
    ∧ Py.transactions acc' = Py.transactions acc ++ [tx]
    ∧ tx = {| Py.tx_type := TxBuy; Py.tx_symbol := upper symbol;
              Py.tx_shares := shares;
              Py.tx_price := Py.get_current_price rec;
              Py.tx_total := total; Py.tx_timestamp := now |}
    ∧ match Py.get_current_price rec with
      | Py.PyInt p => total = Py.PyInt (p * shares)
      | Py.PyFloat x =>
          ∃ f, Py.float_of_int shares = Return f
               ∧ total = Py.PyFloat (SFmul 53 1024 x f)
      end
    ∧ ∃ t, Py.float_of total = Return t
           ∧ new_balance = Py.PyFloat (SFsub 53 1024 b t).
Proof.
  intros Hu Hb Hs Hn Hm Hlt Hsub.
  pose proof Hsub as Hsub'. rewrite Hb in Hsub'.
  apply arith_float_l in Hsub' as (t & Ht & Hnew).
  destruct (price_formats _ _ _ _ Hn Hm Ht) as [x Hx].
  unfold Py.buy. rewrite Hu, Hs.
  destruct (Z.leb_spec shares 0) as [?|_]; [lia|].
  rewrite Hm, Hlt, Hsub. unfold Py.formatting. rewrite Hx, Ht, Hnew. simpl.
  eexists (Py.Build_account _ _ _), _. split; [reflexivity|]. simpl.
  split; [done|]. split; [by apply buy_portfolio|].
  split; [done|]. split; [done|]. split; [by apply mul_shares|]. eauto.
Qed.

Lemma buy_executes_witness :
  ∃ acc' tx,
    Py.buy "t1" "u1" "aapl" 10
      (Py.one_account (Py.holding Py.DEFAULT_STARTING_BALANCE ∅)
         (Py.priced "AAPL" (Py.PyFloat Py.f150)))
    = ({| Py.users_data :=
            <["u1" := acc']>
              {[ "u1" := Py.holding Py.DEFAULT_STARTING_BALANCE ∅ ]};
          Py.stocks_data := Py.priced "AAPL" (Py.PyFloat Py.f150) |},
       Return (Py.PurchaseSuccessful "AAPL" 10 (Py.PyFloat Py.f150)
                 (Py.PyFloat (S754_finite false 6597069766656000 (-42)))
                 (Py.PyFloat (S754_finite false 4672924418048000 (-39)))))
    ∧ Py.balance acc'
      = Py.PyFloat (S754_finite false 4672924418048000 (-39))
    ∧ Py.portfolio acc' = <["AAPL" := 0 + 10]> ∅
    ∧ Py.transactions acc' = [] ++ [tx]
    ∧ tx = {| Py.tx_type := TxBuy; Py.tx_symbol := "AAPL";
              Py.tx_shares := 10; Py.tx_price := Py.PyFloat Py.f150;
              Py.tx_total :=
                Py.PyFloat (S754_finite false 6597069766656000 (-42));
              Py.tx_timestamp := "t1" |}
    ∧ (∃ f, Py.float_of_int 10 = Return f
            ∧ Py.PyFloat (S754_finite false 6597069766656000 (-42))
              = Py.PyFloat (SFmul 53 1024 Py.f150 f))
    ∧ ∃ t, Py.float_of (Py.PyFloat (S754_finite false 6597069766656000 (-42)))
           = Return t
           ∧ Py.PyFloat (S754_finite false 4672924418048000 (-39))
             = Py.PyFloat
                 (SFsub 53 1024 (S754_finite false 5497558138880000 (-39)) t).
Proof.
  refine (buy_executes "t1" "u1" "aapl" 10
            (Py.one_account (Py.holding Py.DEFAULT_STARTING_BALANCE ∅)
               (Py.priced "AAPL" (Py.PyFloat Py.f150)))
            (Py.holding Py.DEFAULT_STARTING_BALANCE ∅)
            {| Py.current_price := Some (Py.PyFloat Py.f150);
               Py.history :=
                 Some [{| Py.h_time := "t0";
                          Py.h_price := Py.PyFloat Py.f150 |}];
               Py.percent_change := Some (Py.PyFloat Py.f0) |}
            (S754_finite false 5497558138880000 (-39))
            (Py.PyFloat (S754_finite false 6597069766656000 (-42)))
            (Py.PyFloat (S754_finite false 4672924418048000 (-39)))
            _ _ _ _ _ _ _).
  - reflexivity.
  - reflexivity.
  - reflexivity.
  - lia.
  - by vm_compute.
  - by vm_compute.
  - by vm_compute.
Defined.

(** A covered order that does not go through, because Python cannot convert
    the share count: at the price [0.0] the cost of any number of shares is
    covered by the starting balance, yet an order for [10 ** 400] shares ends
    with [OverflowError] in [price * shares], without a purchase and without
    a message. *)
Lemma buy_overflows :
  let acc := Py.holding Py.DEFAULT_STARTING_BALANCE ∅ in
  let st := Py.one_account acc (Py.priced "AAPL" (Py.PyFloat Py.f0)) in
  Py.users_data st !! "u1" = Some acc
  ∧ (∃ rec, Py.stocks_data st !! upper "aapl" = Some rec
            ∧ Py.get_current_price rec = Py.PyFloat (S754_zero false))
  ∧ 1 ≤ 10 ^ 400
  ∧ Py.lt (Py.balance acc) (Py.PyInt (0 * 10 ^ 400)) = false
  ∧ Py.buy "t1" "u1" "aapl" (10 ^ 400) st = (st, Raise OverflowError).
Proof.
  cbv zeta. split; [reflexivity|]. split; [by eexists|].
  split; [by vm_compute|]. split; by vm_compute.
Qed.

(** C4, as the code computes.  For a registered account, whose balance is a
    [float], a tracked symbol and at least one share: when Python evaluates
    [total = price * shares] and finds the balance below it, the order is
    refused with the insufficient-funds message, which carries [total] and
    the balance, provided [total] can be formatted; when [total] is an [int]
    too large to be formatted, or when the product itself cannot be
    evaluated, the command ends with [OverflowError] and no message.  The
    state is the same afterwards in all three cases. *)
Theorem buy_insufficient_funds (now user_id symbol : string) (shares : Z)
    (st : Py.bot_state) (acc : Py.account) (rec : Py.stock) (b : spec_float) :
  Py.users_data st !! user_id = Some acc →
  Py.balance acc = Py.PyFloat b →
  Py.stocks_data st !! upper symbol = Some rec →
  1 ≤ shares →
  (∀ total : Py.number,
     Py.mul (Py.get_current_price rec) (Py.PyInt shares) = Return total →
     Py.lt (Py.balance acc) total = true →
     (∀ t, Py.float_of total = Return t →
        Py.buy now user_id symbol shares st
        = (st, Return (Py.NotEnoughMoney total (Py.balance acc))))
     ∧ (∀ e, Py.float_of total = Raise e →
          Py.buy now user_id symbol shares st = (st, Raise e)))
  ∧ (∀ e,
       Py.mul (Py.get_current_price rec) (Py.PyInt shares) = Raise e →
       Py.buy now user_id symbol shares st = (st, Raise e)).
Proof.
  intros Hu Hb Hs Hn. unfold Py.buy. rewrite Hu, Hs.
  destruct (Z.leb_spec shares 0) as [?|_]; [lia|]. split.
  - intros total -> ->. unfold Py.formatting. rewrite Hb. simpl.
    split; [by intros t ->|by intros e ->].
  - by intros e ->.
Qed.

Lemma buy_insufficient_funds_witness :
  Py.buy "t1" "u1" "AAPL" 10
    (Py.one_account (Py.holding (Py.PyFloat Py.f100) ∅)
       (Py.priced "AAPL" (Py.PyFloat Py.f150)))
  = (Py.one_account (Py.holding (Py.PyFloat Py.f100) ∅)
       (Py.priced "AAPL" (Py.PyFloat Py.f150)),
     Return (Py.NotEnoughMoney
               (Py.PyFloat (S754_finite false 6597069766656000 (-42)))
               (Py.PyFloat (S754_finite false 7036874417766400 (-46))))).
Proof.
  refine (proj1
            (proj1
               (buy_insufficient_funds "t1" "u1" "AAPL" 10
                  (Py.one_account (Py.holding (Py.PyFloat Py.f100) ∅)
                     (Py.priced "AAPL" (Py.PyFloat Py.f150)))
                  (Py.holding (Py.PyFloat Py.f100) ∅)
                  {| Py.current_price := Some (Py.PyFloat Py.f150);
                     Py.history :=
                       Some [{| Py.h_time := "t0";
                                Py.h_price := Py.PyFloat Py.f150 |}];
                     Py.percent_change := Some (Py.PyFloat Py.f0) |}
                  Py.f100 _ _ _ _)
               (Py.PyFloat (S754_finite false 6597069766656000 (-42))) _ _)
            (S754_finite false 6597069766656000 (-42)) _).
  - reflexivity.
  - reflexivity.
  - reflexivity.
  - lia.
  - by vm_compute.
  - by vm_compute.
  - reflexivity.
Defined.

(** Orders that cost more than the balance and are not answered with the
    insufficient-funds message.  With a price of [1.0] and a balance of
    [10000.0], an order for [10 ** 400] shares ends with [OverflowError] in
    [price * shares].  With the [int] price 5, the product [5 * 10 ** 400] is
    exact and the funds test refuses the order, but the message cannot format
    the cost and the command ends with [OverflowError] as well.  With a
    balance of [2.0 ** 53] and a price of [1.0], an order for [2 ** 53 + 1]
    shares costs more than the balance, but [float(shares)] rounds to
    [2.0 ** 53]: the order is executed and leaves a balance of [0.0]. *)
Lemma insufficient_funds_not_reported :
  (let acc := Py.holding Py.DEFAULT_STARTING_BALANCE ∅ in
   let st := Py.one_account acc (Py.priced "AAPL" (Py.PyFloat Py.f1)) in
   Py.lt (Py.balance acc) (Py.PyInt (1 * 10 ^ 400)) = true
   ∧ Py.buy "t1" "u1" "aapl" (10 ^ 400) st = (st, Raise OverflowError))
  ∧ (let acc := Py.holding Py.DEFAULT_STARTING_BALANCE ∅ in
     let st := Py.one_account acc (Py.priced "AAPL" (Py.PyInt 5)) in
     Py.mul (Py.PyInt 5) (Py.PyInt (10 ^ 400)) = Return (Py.PyInt (5 * 10 ^ 400))
     ∧ Py.lt (Py.balance acc) (Py.PyInt (5 * 10 ^ 400)) = true
     ∧ Py.buy "t1" "u1" "aapl" (10 ^ 400) st = (st, Raise OverflowError))
  ∧ (let acc := Py.holding (Py.PyFloat Py.f_2_53) ∅ in
     let st := Py.one_account acc (Py.priced "AAPL" (Py.PyFloat Py.f1)) in
     Py.lt (Py.balance acc) (Py.PyInt (1 * (2 ^ 53 + 1))) = true
     ∧ ∃ st' acc',
         Py.buy "t1" "u1" "aapl" (2 ^ 53 + 1) st
         = (st', Return (Py.PurchaseSuccessful "AAPL" (2 ^ 53 + 1)
                           (Py.PyFloat Py.f1) (Py.PyFloat Py.f_2_53)
                           (Py.PyFloat (S754_zero false))))
         ∧ Py.users_data st' !! "u1" = Some acc'
         ∧ Py.balance acc' = Py.PyFloat (S754_zero false)
         ∧ Py.portfolio acc' !! "AAPL" = Some (2 ^ 53 + 1)).
Proof.
  split; [|split].
  - cbv zeta. split; by vm_compute.
  - cbv zeta. split; [by vm_compute|]. split; by vm_compute.
  - cbv zeta. split; [by vm_compute|].
    eexists _, _. split; [vm_compute; reflexivity|].
    split; [vm_compute; reflexivity|]. split; reflexivity.
Qed.

(** C3, as the code computes.  A sell order of a registered account for a
    tracked symbol of which it holds at least [shares >= 1], for which Python
    evaluates [total = price * shares] and [balance + total], succeeds: the
    balance becomes [balance + total], the holding is decreased by [shares]
    and its key is deleted when nothing is left, one [sell] transaction with
    that price and that total is appended, and the embed carries the same
    amounts.  [total] is the exact product when the price is an [int], and
    the binary64 product of the price and of [float(shares)] when it is a
    [float].  The balance of the account is a [float], as every balance that
    the commands store is. *)
Theorem sell_executes (now user_id symbol : string) (shares held : Z)
    (st : Py.bot_state) (acc : Py.account) (rec : Py.stock)
    (b : spec_float) (total new_balance : Py.number) :
  Py.users_data st !! user_id = Some acc →
  Py.balance acc = Py.PyFloat b →
  Py.stocks_data st !! upper symbol = Some rec →
  1 ≤ shares →
  Py.portfolio acc !! upper symbol = Some held →
  shares ≤ held →
  Py.mul (Py.get_current_price rec) (Py.PyInt shares) = Return total →
  Py.add (Py.balance acc) total = Return new_balance →
  ∃ acc' tx,
    Py.sell now user_id symbol shares st
    = ({| Py.users_data := <[user_id := acc']> (Py.users_data st);
          Py.stocks_data := Py.stocks_data st |},
       Return (Py.SaleSuccessful (upper symbol) shares
                 (Py.get_current_price rec) total new_balance))
    ∧ Py.balance acc' = new_balance
    ∧ Py.portfolio acc'
      = (if decide (held - shares = 0)
         then delete (upper symbol) (Py.portfolio acc)
         else <[upper symbol := held - shares]> (Py.portfolio acc))
    ∧ Py.transactions acc' = Py.transactions acc ++ [tx]
    ∧ tx = {| Py.tx_type := TxSell; Py.tx_symbol := upper symbol;
              Py.tx_shares := shares;
              Py.tx_price := Py.get_current_price rec;
              Py.tx_total := total; Py.tx_timestamp := now |}
    ∧ match Py.get_current_price rec with
      | Py.PyInt p => total = Py.PyInt (p * shares)
      | Py.PyFloat x =>
          ∃ f, Py.float_of_int shares = Return f
               ∧ total = Py.PyFloat (SFmul 53 1024 x f)
      end
    ∧ ∃ t, Py.float_of total = Return t
           ∧ new_balance = Py.PyFloat (SFadd 53 1024 b t).
Proof.
  intros Hu Hb Hs Hn Hh Hle Hm Hadd.
  pose proof Hadd as Hadd'. rewrite Hb in Hadd'.
  apply arith_float_l in Hadd' as (t & Ht & Hnew).
  destruct (price_formats _ _ _ _ Hn Hm Ht) as [x Hx].
  unfold Py.sell. rewrite Hu, Hs, Hh.
  destruct (Z.leb_spec shares 0) as [?|_]; [lia|].
  destruct (Z.ltb_spec held shares) as [?|_]; [lia|].
  rewrite Hm, Hadd. unfold Py.formatting. rewrite Hx, Ht, Hnew. simpl.
  eexists (Py.Build_account _ _ _), _. split; [reflexivity|]. simpl.
  split; [done|]. split.
  { rewrite lookup_insert_eq.
    destruct (decide (Some (held - shares) = Some 0)) as [E|E];
      destruct (decide (held - shares = 0)) as [E'|E']; try congruence.
    apply delete_insert_eq. }
  split; [done|]. split; [done|]. split; [by apply mul_shares|]. eauto.
Qed.

Lemma sell_executes_witness :
  ∃ acc' tx,
    Py.sell "t3" "u1" "aapl" 10
      (Py.one_account
         (Py.holding (Py.PyFloat Py.f8500) {[ "AAPL" := 10 ]})
         (Py.priced "AAPL" (Py.PyFloat Py.f150)))
    = ({| Py.users_data :=
            <["u1" := acc']>
              {[ "u1" := Py.holding (Py.PyFloat Py.f8500)
                           {[ "AAPL" := 10 ]} ]};
          Py.stocks_data := Py.priced "AAPL" (Py.PyFloat Py.f150) |},
       Return (Py.SaleSuccessful "AAPL" 10 (Py.PyFloat Py.f150)
                 (Py.PyFloat (S754_finite false 6597069766656000 (-42)))
                 (Py.PyFloat (S754_finite false 5497558138880000 (-39)))))
    ∧ Py.balance acc'
      = Py.PyFloat (S754_finite false 5497558138880000 (-39))
    ∧ Py.portfolio acc' = delete "AAPL" {[ "AAPL" := 10 ]}
    ∧ Py.transactions acc' = [] ++ [tx]
    ∧ tx = {| Py.tx_type := TxSell; Py.tx_symbol := "AAPL";
              Py.tx_shares := 10; Py.tx_price := Py.PyFloat Py.f150;
              Py.tx_total :=
                Py.PyFloat (S754_finite false 6597069766656000 (-42));
              Py.tx_timestamp := "t3" |}
    ∧ (∃ f, Py.float_of_int 10 = Return f
            ∧ Py.PyFloat (S754_finite false 6597069766656000 (-42))
              = Py.PyFloat (SFmul 53 1024 Py.f150 f))
    ∧ ∃ t, Py.float_of (Py.PyFloat (S754_finite false 6597069766656000 (-42)))
           = Return t
           ∧ Py.PyFloat (S754_finite false 5497558138880000 (-39))
             = Py.PyFloat (SFadd 53 1024 Py.f8500 t).
Proof.
  refine (sell_executes "t3" "u1" "aapl" 10 10
            (Py.one_account
               (Py.holding (Py.PyFloat Py.f8500) {[ "AAPL" := 10 ]})
               (Py.priced "AAPL" (Py.PyFloat Py.f150)))
            (Py.holding (Py.PyFloat Py.f8500) {[ "AAPL" := 10 ]})
            {| Py.current_price := Some (Py.PyFloat Py.f150);
               Py.history :=
                 Some [{| Py.h_time := "t0";
                          Py.h_price := Py.PyFloat Py.f150 |}];
               Py.percent_change := Some (Py.PyFloat Py.f0) |}
            Py.f8500
            (Py.PyFloat (S754_finite false 6597069766656000 (-42)))
            (Py.PyFloat (S754_finite false 5497558138880000 (-39)))
            _ _ _ _ _ _ _ _).
  - reflexivity.
  - reflexivity.
  - reflexivity.
  - lia.
  - reflexivity.
  - lia.
  - by vm_compute.
  - by vm_compute.
Defined.

(** A sale of shares that the account holds and that does not go through,
    because Python cannot convert the share count.  While the price of a
    stock is the [int] 0, [10 ** 400] shares of it are bought for nothing, the
    product of two [int]s being exact; once its price is the [float] [0.0],
    as after a refresh of a mock price, selling the [10 ** 400] shares that
    the account holds ends with [OverflowError] in [price * shares], without
    a sale and without a message. *)
Lemma sell_overflows :
  let st := Py.one_account (Py.holding Py.DEFAULT_STARTING_BALANCE ∅)
              (Py.priced "ZZ" (Py.PyInt 0)) in
  ∃ st1 acc1,
    Py.buy "t1" "u1" "zz" (10 ^ 400) st
    = (st1, Return (Py.PurchaseSuccessful "ZZ" (10 ^ 400) (Py.PyInt 0)
                      (Py.PyInt 0) Py.DEFAULT_STARTING_BALANCE))
    ∧ Py.users_data st1 !! "u1" = Some acc1
    ∧ Py.portfolio acc1 !! "ZZ" = Some (10 ^ 400)
    ∧ let st2 := {| Py.users_data := Py.users_data st1;
                    Py.stocks_data := Py.priced "ZZ" (Py.PyFloat Py.f0) |} in
      Py.sell "t2" "u1" "zz" (10 ^ 400) st2 = (st2, Raise OverflowError).
Proof.
  cbv zeta. eexists _, _. split; [vm_compute; reflexivity|].
  split; [vm_compute; reflexivity|]. split; [reflexivity|].
  vm_compute. reflexivity.
Qed.

(** ** Price source: the price 0 *)

Lemma round2_0 : round2 0%Qc = 0%Qc.
Proof. apply Qc_is_canon. reflexivity. Qed.

Lemma generate_mock_price_untracked (hash : string → Z) (rnd : Qc)
    (symbol : string) (stocks : gmap string stock) :
  stocks !! symbol = None →
  generate_mock_price hash rnd symbol stocks
  = Return (Qc_of_Z (hash symbol mod 1000),
            <[symbol := {| current_price := Some (Qc_of_Z (hash symbol mod 1000));
                           history := None;
                           percent_change := None |}]> stocks).
Proof. intros H. unfold generate_mock_price. by rewrite H. Qed.

Lemma generate_mock_price_tracked (hash : string → Z) (rnd : Qc)
    (symbol : string) (stocks : gmap string stock) (rec : stock) (current : Qc) :
  stocks !! symbol = Some rec →
  current_price rec = Some current →
  generate_mock_price hash rnd symbol stocks
  = Return (round2 (current * (1 + (rnd - Q2Qc (1 # 2)) * Q2Qc (5 # 100)))%Qc,
            stocks).
Proof. intros H1 H2. unfold generate_mock_price. by rewrite H1, H2. Qed.

(** Against a zero of either kind the balance compares in the same way, and
    subtracting [0.0] changes no [float]. *)
Lemma lt_float_zero (b : spec_float) (s : bool) :
  Py.lt (Py.PyFloat b) (Py.PyFloat (S754_zero s))
  = Py.lt (Py.PyFloat b) (Py.PyInt 0).
Proof.
  destruct b as [sb|sb| |sb m e]; simpl; try done.
  unfold SFltb. simpl.
  destruct (Z.leb_spec 0 e) as [He|He]; [|by destruct sb].
  assert (0 < Z.pos m * 2 ^ e)
    by (apply Z.mul_pos_pos; [lia|by apply Z.pow_pos_nonneg]).
  destruct sb; simpl.
  - change (Z.neg m) with (- Z.pos m). rewrite Z.mul_opp_l.
    destruct (Z.compare_spec (- (Z.pos m * 2 ^ e)) 0); (done || lia).
  - destruct (Z.compare_spec (Z.pos m * 2 ^ e) 0); (done || lia).
Qed.

Lemma SFsub_zero (b : spec_float) :
  SFsub 53 1024 b (S754_zero false) = b.
Proof. by destruct b as [[]|[]| |]. Qed.

(** [0.0 * float(shares)] is [0.0] for every share count that converts. *)
Lemma mul_float_zero (shares : Z) :
  1 ≤ shares →
  shares < Py.FLOAT_OVERFLOW →
  Py.mul (Py.PyFloat (S754_zero false)) (Py.PyInt shares)
  = Return (Py.PyFloat (S754_zero false)).
Proof.
  intros Hn Hb. unfold Py.mul.
  assert (Hf : Py.float_of_int shares
               = Return (binary_normalize 53 1024 shares 0 false))
    by (apply float_of_int_returns; lia).
  rewrite (arith_float_l_returns _ _ _ _ (Py.PyInt shares) Hf).
  destruct (float_of_int_finite _ _ Hf) as [->|(m & e & ->)]; [done|].
  by destruct (Z.ltb_spec shares 0); [lia|].
Qed.

(** C10, as the code computes.  A registered account whose balance is not
    negative buys for nothing from a stock whose price is zero or missing:
    the order succeeds at a total cost of zero, the balance stays and the
    holding grows by [shares].  When the price is the [int] 0, which is what
    [buy] reads from a record without a price and what the mock generator
    gives to a new symbol whose hash is a multiple of 1000, this holds for
    every [shares >= 1].  When the price is the [float] [0.0], which the mock
    generator makes of a price of 0 whatever the random draw, it holds for
    the share counts that convert to a [float], and the order for any larger
    count ends with [OverflowError] before anything is changed. *)
Theorem zero_price_buy_is_free (hash : string → Z) (rnd : Qc)
    (now user_id symbol : string) (shares : Z)
    (st : Py.bot_state) (acc : Py.account) (rec : Py.stock) (b : spec_float) :
  Py.users_data st !! user_id = Some acc →
  Py.balance acc = Py.PyFloat b →
  Py.lt (Py.balance acc) (Py.PyInt 0) = false →
  Py.stocks_data st !! upper symbol = Some rec →
  1 ≤ shares →
  let free (zero : Py.number) :=
    ∃ acc',
      Py.buy now user_id symbol shares st
      = ({| Py.users_data := <[user_id := acc']> (Py.users_data st);
            Py.stocks_data := Py.stocks_data st |},
         Return (Py.PurchaseSuccessful (upper symbol) shares zero zero
                   (Py.balance acc)))
      ∧ Py.balance acc' = Py.balance acc
      ∧ Py.portfolio acc'
        = <[upper symbol
            := default 0 (Py.portfolio acc !! upper symbol) + shares]>
            (Py.portfolio acc) in
  (Py.current_price rec = Some (Py.PyInt 0) ∨ Py.current_price rec = None →
   free (Py.PyInt 0))
  ∧ (Py.current_price rec = Some (Py.PyFloat (S754_zero false)) →
     (shares < Py.FLOAT_OVERFLOW → free (Py.PyFloat (S754_zero false)))
     ∧ (Py.FLOAT_OVERFLOW ≤ shares →
        Py.buy now user_id symbol shares st = (st, Raise OverflowError)))
  ∧ (∀ (stocks : gmap string stock) (rec0 : stock),
       stocks !! upper symbol = Some rec0 →
       current_price rec0 = Some 0%Qc →
       generate_mock_price hash rnd (upper symbol) stocks
       = Return (0%Qc, stocks))
  ∧ (∀ (stocks : gmap string stock) (fresh : string),
       stocks !! fresh = None →
       hash fresh mod 1000 = 0 →
       generate_mock_price hash rnd fresh stocks
       = Return (0%Qc,
                 <[fresh := {| current_price := Some 0%Qc;
                               history := None;
                               percent_change := None |}]> stocks)).
Proof.
  intros Hu Hb Hlt Hs Hn free.
  assert (Hpaid : ∀ zero : Py.number,
            Py.get_current_price rec = zero →
            Py.mul zero (Py.PyInt shares) = Return zero →
            Py.lt (Py.balance acc) zero = false →
            Py.sub (Py.balance acc) zero = Return (Py.balance acc) →
            free zero).
  { intros zero Hp Hm Hl Hsub.
    destruct (buy_executes now user_id symbol shares st acc rec b zero
                (Py.balance acc) Hu Hb Hs Hn) as (acc' & tx & H); try by subst.
    rewrite Hp in H. exists acc'. tauto. }
  split; [|split; [|split]].
  - intros Hp. apply Hpaid.
    + unfold Py.get_current_price. by destruct Hp as [-> | ->].
    + done.
    + done.
    + rewrite Hb. unfold Py.sub.
      rewrite (arith_float_l_returns _ _ _ (S754_zero false)) by done.
      by rewrite SFsub_zero.
  - intros Hp. split.
    + intros Hbound. apply Hpaid.
      * unfold Py.get_current_price. by rewrite Hp.
      * by apply mul_float_zero.
      * rewrite Hb in *. by rewrite lt_float_zero.
      * rewrite Hb. unfold Py.sub.
        rewrite (arith_float_l_returns _ _ _ (S754_zero false)) by done.
        by rewrite SFsub_zero.
    + intros Hbig. unfold Py.buy. rewrite Hu, Hs.
      destruct (Z.leb_spec shares 0) as [?|_]; [lia|].
      unfold Py.get_current_price. rewrite Hp. simpl.
      unfold Py.mul, Py.arith. simpl.
      by rewrite float_of_int_overflow by lia.
  - intros stocks rec0 Hs0 H0.
    rewrite (generate_mock_price_tracked _ _ _ _ _ _ Hs0 H0).
    rewrite Qcmult_0_l. by rewrite round2_0.
  - intros stocks fresh Hf Hh.
    rewrite (generate_mock_price_untracked _ _ _ _ Hf).
    by rewrite Hh, Qc_of_Z_0.
Qed.

(** The free purchase in a run from the empty state: the stock enters at the
    mock base price 0, a refresh without quote keeps it there, and the new
    account then holds 5 shares with its starting balance untouched. *)
Lemma free_shares_reachable :
  ∃ acc : account,
    users_data (run (λ _, 3000) free_run initial_state) !! "u1" = Some acc
    ∧ balance acc = DEFAULT_STARTING_BALANCE
    ∧ portfolio acc !! "ZZ" = Some 5.
Proof.
  eexists. split; [vm_compute; reflexivity|]. split; [|reflexivity].
  apply Qc_is_canon. reflexivity.
Qed.

Lemma zero_price_buy_is_free_witness :
  let st := Py.one_account (Py.holding Py.DEFAULT_STARTING_BALANCE ∅)
              (Py.priced "FREE" (Py.PyInt 0)) in
  let free (zero : Py.number) :=
    ∃ acc',
      Py.buy "t1" "u1" "free" 5 st
      = ({| Py.users_data := <["u1" := acc']> (Py.users_data st);
            Py.stocks_data := Py.stocks_data st |},
         Return (Py.PurchaseSuccessful "FREE" 5 zero zero
                   Py.DEFAULT_STARTING_BALANCE))
      ∧ Py.balance acc' = Py.DEFAULT_STARTING_BALANCE
      ∧ Py.portfolio acc' = <["FREE" := 0 + 5]> ∅ in
  (Some (Py.PyInt 0) = Some (Py.PyInt 0) ∨ Some (Py.PyInt 0) = None →
   free (Py.PyInt 0))
  ∧ (Some (Py.PyInt 0) = Some (Py.PyFloat (S754_zero false)) →
     (5 < Py.FLOAT_OVERFLOW → free (Py.PyFloat (S754_zero false)))
     ∧ (Py.FLOAT_OVERFLOW ≤ 5 →
        Py.buy "t1" "u1" "free" 5 st = (st, Raise OverflowError)))
  ∧ (∀ (stocks : gmap string stock) (rec0 : stock),
       stocks !! "FREE" = Some rec0 →
       current_price rec0 = Some 0%Qc →
       generate_mock_price (λ _, 3000) (Q2Qc (9 # 10)) "FREE" stocks
       = Return (0%Qc, stocks))
  ∧ (∀ (stocks : gmap string stock) (fresh : string),
       stocks !! fresh = None →
       3000 mod 1000 = 0 →
       generate_mock_price (λ _, 3000) (Q2Qc (9 # 10)) fresh stocks
       = Return (0%Qc,
                 <[fresh := {| current_price := Some 0%Qc;
                               history := None;
                               percent_change := None |}]> stocks)).
Proof.
  refine (zero_price_buy_is_free (λ _, 3000) (Q2Qc (9 # 10)) "t1" "u1" "free" 5
            (Py.one_account (Py.holding Py.DEFAULT_STARTING_BALANCE ∅)
               (Py.priced "FREE" (Py.PyInt 0)))
            (Py.holding Py.DEFAULT_STARTING_BALANCE ∅)
            {| Py.current_price := Some (Py.PyInt 0);
               Py.history :=
                 Some [{| Py.h_time := "t0"; Py.h_price := Py.PyInt 0 |}];
               Py.percent_change := Some (Py.PyFloat Py.f0) |}
            (S754_finite false 5497558138880000 (-39)) _ _ _ _ _).
  - reflexivity.
  - reflexivity.
  - by vm_compute.
  - reflexivity.
  - lia.
Defined.

(** The other free purchases, computed: at the [float] price [0.0], and from
    a record without a price. *)
Lemma free_purchases :
  (∃ st',
     Py.buy "t1" "u1" "free" 5
       (Py.one_account (Py.holding Py.DEFAULT_STARTING_BALANCE ∅)
          (Py.priced "FREE" (Py.PyFloat Py.f0)))
     = (st', Return (Py.PurchaseSuccessful "FREE" 5 (Py.PyFloat Py.f0)
                       (Py.PyFloat Py.f0) Py.DEFAULT_STARTING_BALANCE))
     ∧ Py.users_data st' !! "u1"
       = Some {| Py.balance := Py.DEFAULT_STARTING_BALANCE;
                 Py.portfolio := {[ "FREE" := 5 ]};
                 Py.transactions :=
                   [{| Py.tx_type := TxBuy; Py.tx_symbol := "FREE";
                       Py.tx_shares := 5; Py.tx_price := Py.PyFloat Py.f0;
                       Py.tx_total := Py.PyFloat Py.f0;
                       Py.tx_timestamp := "t1" |}] |})
  ∧ (∃ st',
       Py.buy "t1" "u1" "free" 5
         (Py.one_account (Py.holding Py.DEFAULT_STARTING_BALANCE ∅)
            {[ "FREE" := {| Py.current_price := None;
                            Py.history := Some [];
                            Py.percent_change := None |} ]})
       = (st', Return (Py.PurchaseSuccessful "FREE" 5 (Py.PyInt 0)
                         (Py.PyInt 0) Py.DEFAULT_STARTING_BALANCE))
       ∧ ∃ acc', Py.users_data st' !! "u1" = Some acc'
                 ∧ Py.balance acc' = Py.DEFAULT_STARTING_BALANCE
                 ∧ Py.portfolio acc' !! "FREE" = Some 5).
Proof.
  split.
  - eexists. split; [vm_compute; reflexivity|]. vm_compute. reflexivity.
  - eexists. split; [vm_compute; reflexivity|].
    eexists. split; [vm_compute; reflexivity|]. split; reflexivity.
Qed.

(** Orders at a price of zero that do not go through: the one of an account
    in debt, and the one for a share count that does not convert.  Buying 200
    shares at the price [-100.0], 300 shares at [100.0] and selling the 200
    again leaves the balance at [-20000.0], and then one share at the price 0
    is refused for lack of funds.  At the price [0.0], the order of a fresh
    account for [10 ** 400] shares ends with [OverflowError]. *)
Lemma zero_price_buy_refused :
  (let st := Py.one_account (Py.holding Py.DEFAULT_STARTING_BALANCE ∅)
               Py.overdraw_catalog in
   let st3 :=
     (Py.sell "t3" "u1" "down" 200
        (Py.buy "t2" "u1" "up" 300
           (Py.buy "t1" "u1" "down" 200 st).1).1).1 in
   ∃ acc rec,
     Py.users_data st3 !! "u1" = Some acc
     ∧ Py.balance acc = Py.PyFloat Py.f_minus_20000
     ∧ Py.stocks_data st3 !! upper "zz" = Some rec
     ∧ Py.current_price rec = Some (Py.PyInt 0)
     ∧ Py.buy "t4" "u1" "zz" 1 st3
       = (st3, Return (Py.NotEnoughMoney (Py.PyInt 0)
                         (Py.PyFloat Py.f_minus_20000))))
  ∧ (let st := Py.one_account (Py.holding Py.DEFAULT_STARTING_BALANCE ∅)
                 (Py.priced "ZZ" (Py.PyFloat (S754_zero false))) in
     Py.buy "t1" "u1" "zz" (10 ^ 400) st = (st, Raise OverflowError)).
Proof.
  split; cbv zeta.
  - eexists _, _. split; [vm_compute; reflexivity|].
    split; [reflexivity|]. split; [vm_compute; reflexivity|].
    split; [reflexivity|]. by vm_compute.
  - by vm_compute.
Qed.

(** ** Instrument catalog: history *)

Lemma last_n_all {A} (n : nat) (l : list A) :
  (length l ≤ n)%nat → last_n n l = l.
Proof. intros H. unfold last_n. by replace (length l - n)%nat with 0%nat by lia. Qed.

Lemma length_last_n {A} (n : nat) (l : list A) :
  length (last_n n l) = (length l `min` n)%nat.
Proof. unfold last_n. rewrite length_drop. lia. Qed.

Lemma last_n_app_l {A} (n : nat) (l l' : list A) :
  last_n n (last_n n l ++ l') = last_n n (l ++ l').
Proof.
  unfold last_n. rewrite !length_app, length_drop, !drop_app, !length_drop.
  rewrite drop_drop. f_equal; f_equal; lia.
Qed.

Lemma record_price_history (timestamp : string) (price : Qc) (rec : stock) :
  history (record_price timestamp price rec)
  = Some (last_n 24 (default [] (history rec)
                     ++ [{| h_time := timestamp; h_price := price |}])).
Proof.
  unfold record_price. simpl. f_equal.
  destruct (Nat.ltb_spec 24
              (length (default [] (history rec)
                       ++ [{| h_time := timestamp; h_price := price |}])));
    [done|]. by rewrite last_n_all.
Qed.

Lemma record_price_current (timestamp : string) (price : Qc) (rec : stock) :
  current_price (record_price timestamp price rec) = Some price.
Proof. done. Qed.

Lemma record_prices_snoc (rec : stock) (ups : list (string * Qc))
    (u : string * Qc) :
  record_prices rec (ups ++ [u]) = record_price u.1 u.2 (record_prices rec ups).
Proof. unfold record_prices. by rewrite foldl_app. Qed.

Lemma record_prices_history (rec : stock) (ups : list (string * Qc)) :
  ups ≠ [] →
  history (record_prices rec ups)
  = Some (last_n 24 (default [] (history rec) ++ (entry_of <$> ups))).
Proof.
  induction ups as [|u ups IH] using rev_ind; [done|]. intros _.
  rewrite record_prices_snoc, record_price_history, fmap_app. simpl.
  destruct ups as [|u0 ups0].
  - done.
  - rewrite IH by done. simpl default.
    by rewrite last_n_app_l, <- app_assoc.
Qed.

(** ** Instrument catalog: one refresh cycle *)


(** A loop iteration touches the record of its own symbol only. *)
Lemma update_stock_price_other (hash : string → Z) (quote : option Qc)
    (rnd : Qc) (timestamp symbol s : string) (stocks : gmap string stock) :
  s ≠ symbol →
  update_stock_price hash quote rnd timestamp symbol stocks !! s = stocks !! s.
Proof.
  intros Hne. unfold update_stock_price, generate_mock_price.
  destruct quote as [price|].
  - destruct (stocks !! symbol); [|done]. by rewrite lookup_insert_ne.
  - destruct (stocks !! symbol) as [rec|] eqn:E.
    + destruct (current_price rec); [|done]. rewrite E.
      by rewrite lookup_insert_ne.
    + rewrite lookup_insert_eq. by rewrite !lookup_insert_ne.
Qed.

(** On a tracked symbol it applies [refresh_record]. *)
Lemma update_stock_price_tracked (hash : string → Z) (c : cycle)
    (symbol : string) (stocks : gmap string stock) (rec : stock) :
  stocks !! symbol = Some rec →
  update_stock_price hash (quote_of c symbol) (rnd_of c symbol)
    (clock_of c symbol) symbol stocks !! symbol
  = Some (refresh_record c symbol rec).
Proof.
  intros H. unfold update_stock_price, generate_mock_price, refresh_record,
    refreshed_price.
  destruct (quote_of c symbol) as [price|].
  - rewrite H. by rewrite lookup_insert_eq.
  - rewrite H. destruct (current_price rec) as [current|]; simpl; [|done].
    rewrite H. by rewrite lookup_insert_eq.
Qed.

Lemma update_loop_lookup (hash : string → Z) (c : cycle) (symbols : list string)
    (stocks : gmap string stock) (s : string) :
  NoDup symbols →
  (∀ x, x ∈ symbols → is_Some (stocks !! x)) →
  foldl (λ acc symbol,
           update_stock_price hash (quote_of c symbol) (rnd_of c symbol)
             (clock_of c symbol) symbol acc)
        stocks symbols !! s
  = if decide (s ∈ symbols) then refresh_record c s <$> stocks !! s
    else stocks !! s.
Proof.
  revert stocks. induction symbols as [|a symbols IH]; intros stocks Hnd Hin.
  - simpl. destruct (decide (s ∈ [])) as [H|H]; [|done].
    by apply elem_of_nil in H.
  - apply NoDup_cons in Hnd as [Ha Hnd]. simpl. rewrite IH; [|done|].
    + destruct (decide (s = a)) as [->|Hne].
      * rewrite decide_False by done. rewrite decide_True by apply list_elem_of_here.
        destruct (Hin a) as [rec Hrec]; [apply list_elem_of_here|].
        rewrite Hrec. simpl. by apply update_stock_price_tracked.
      * rewrite update_stock_price_other by done.
        destruct (decide (s ∈ symbols)) as [Hs|Hs].
        -- by rewrite decide_True by by apply list_elem_of_further.
        -- rewrite decide_False; [done|]. by intros [?|?]%elem_of_cons.
    + intros x Hx. rewrite update_stock_price_other.
      * apply Hin. by apply list_elem_of_further.
      * intros ->. done.
Qed.

(** A refresh cycle maps [refresh_record] over the catalog. *)
Lemma update_stock_prices_lookup (hash : string → Z) (c : cycle)
    (stocks : gmap string stock) (s : string) :
  update_stock_prices hash c stocks !! s = refresh_record c s <$> stocks !! s.
Proof.
  unfold update_stock_prices. rewrite update_loop_lookup.
  - destruct (decide (s ∈ (map_to_list stocks).*1)) as [H|H]; [done|].
    destruct (stocks !! s) as [rec|] eqn:E; [|done].
    exfalso. apply H. apply list_elem_of_fmap. exists (s, rec).
    split; [done|]. by apply elem_of_map_to_list.
  - apply NoDup_fst_map_to_list.
  - intros x [[k v] [-> Hkv]]%list_elem_of_fmap.
    apply elem_of_map_to_list in Hkv. by exists v.
Qed.

Lemma refreshed_price_is_Some (c : cycle) (symbol : string) (rec : stock) :
  is_Some (current_price rec) → is_Some (refreshed_price c symbol rec).
Proof.
  intros [current H]. unfold refreshed_price. rewrite H.
  destruct (quote_of c symbol); simpl; eauto.
Qed.

Lemma update_stock_prices_priced (hash : string → Z) (c : cycle)
    (stocks : gmap string stock) (s : string) (rec : stock) (price : Qc) :
  stocks !! s = Some rec →
  refreshed_price c s rec = Some price →
  update_stock_prices hash c stocks !! s
  = Some (record_price (clock_of c s) price rec).
Proof.
  intros Hs Hp. rewrite update_stock_prices_lookup, Hs. simpl.
  unfold refresh_record. by rewrite Hp.
Qed.

(** ** Instrument catalog: successive cycles *)

Lemma run_cycles_cons (hash : string → Z) (c : cycle) (cs : list cycle)
    (stocks : gmap string stock) :
  run_cycles hash (c :: cs) stocks
  = run_cycles hash cs (update_stock_prices hash c stocks).
Proof. done. Qed.

(** The record of a symbol that has a price receives one update per cycle. *)
Lemma run_cycles_records (hash : string → Z) (cs : list cycle)
    (stocks : gmap string stock) (s : string) (rec : stock) :
  stocks !! s = Some rec →
  is_Some (current_price rec) →
  ∃ ups : list (string * Qc),
    length ups = length cs
    ∧ ∀ k : nat,
        run_cycles hash (take k cs) stocks !! s
        = Some (record_prices rec (take k ups)).
Proof.
  revert stocks rec. induction cs as [|c cs IH]; intros stocks rec Hs Hp.
  - exists []. split; [done|]. intros k. by rewrite !take_nil.
  - destruct (refreshed_price_is_Some c s rec Hp) as [price Hprice].
    pose proof (update_stock_prices_priced hash c stocks s rec price Hs Hprice)
      as Hs1.
    destruct (IH _ _ Hs1) as [ups [Hlen Hups]].
    { rewrite record_price_current. eauto. }
    exists ((clock_of c s, price) :: ups). split; [simpl; by rewrite Hlen|].
    intros [|k]; [done|]. simpl take. rewrite run_cycles_cons. apply Hups.
Qed.

Lemma last_n_app_r {A} (n : nat) (l l' : list A) :
  (n ≤ length l')%nat → last_n n (l ++ l') = drop (length l' - n) l'.
Proof.
  intros H. unfold last_n. rewrite length_app, drop_app.
  rewrite drop_ge by lia. simpl. f_equal. lia.
Qed.

(** C6. A refresh of a tracked symbol that has a price puts the new
    (timestamp, price) entry at the end of the history and keeps the last 24
    entries of the result; after any positive number of refresh cycles the
    history has at most 24 entries; and after 30 cycles it consists of the
    entries of the updates 7 to 30, so that it has 24 entries and starts with
    the entry of the seventh update. *)
Theorem history_bounded_fifo (hash : string → Z) (c : cycle) (cs : list cycle)
    (stocks : gmap string stock) (s : string) (rec : stock) :
  stocks !! s = Some rec →
  is_Some (current_price rec) →
  length cs = 30%nat →
  (∃ rec' price,
      update_stock_prices hash c stocks !! s = Some rec'
      ∧ current_price rec' = Some price
      ∧ history rec'
        = Some (last_n 24 (default [] (history rec)
                           ++ [{| h_time := clock_of c s; h_price := price |}])))
  ∧ (∀ cs' : list cycle,
       cs' ≠ [] →
       ∃ rec' h,
         run_cycles hash cs' stocks !! s = Some rec'
         ∧ history rec' = Some h
         ∧ (length h ≤ 24)%nat)
  ∧ (∃ (ups : list (string * Qc)) (rec30 : stock) (h30 : list history_entry),
       length ups = 30%nat
       ∧ (∀ k : nat,
            run_cycles hash (take k cs) stocks !! s
            = Some (record_prices rec (take k ups)))
       ∧ run_cycles hash cs stocks !! s = Some rec30
       ∧ history rec30 = Some h30
       ∧ h30 = entry_of <$> drop 6 ups
       ∧ length h30 = 24%nat
       ∧ h30 !! 0%nat = entry_of <$> ups !! 6%nat).
Proof.
  intros Hs Hp Hlen. split; [|split].
  - destruct (refreshed_price_is_Some c s rec Hp) as [price Hprice].
    exists (record_price (clock_of c s) price rec), price.
    split; [by apply update_stock_prices_priced|].
    split; [done|]. apply record_price_history.
  - intros cs' Hne.
    destruct (run_cycles_records hash cs' stocks s rec Hs Hp)
      as [ups [Hl Hups]].
    specialize (Hups (length cs')). rewrite take_ge in Hups by done.
    rewrite take_ge in Hups by lia.
    eexists _, _. split; [exact Hups|]. split.
    + apply record_prices_history. destruct ups; [|done].
      destruct cs'; [done|]. simpl in Hl. lia.
    + rewrite length_last_n. lia.
  - destruct (run_cycles_records hash cs stocks s rec Hs Hp)
      as [ups [Hl Hups]].
    rewrite Hlen in Hl.
    assert (Hfinal : history (record_prices rec ups)
                     = Some (entry_of <$> drop 6 ups)).
    { rewrite record_prices_history by (destruct ups; [simpl in Hl; lia|done]).
      rewrite last_n_app_r by (rewrite length_fmap; lia).
      rewrite length_fmap, Hl. by rewrite fmap_drop. }
    exists ups, (record_prices rec ups), (entry_of <$> drop 6 ups).
    split; [done|]. split; [done|]. split.
    { specialize (Hups 30%nat). rewrite take_ge in Hups by lia.
      by rewrite take_ge in Hups by lia. }
    split; [done|]. split; [done|]. split.
    + rewrite length_fmap, length_drop. lia.
    + rewrite list_lookup_fmap, lookup_drop. done.
Qed.

(** The assumption that the record has a price is needed: without one and
    without a quote the mock generator raises, the loop body is abandoned and
    nothing is appended. *)
Lemma update_skips_priceless (hash : string → Z) (tick : string) :
  update_stock_prices hash (unquoted tick) {[ "XYZ" := priceless ]}
  = {[ "XYZ" := priceless ]}.
Proof.
  apply map_eq. intros s. rewrite update_stock_prices_lookup.
  destruct (decide (s = "XYZ")) as [->|Hne].
  - by rewrite lookup_singleton_eq.
  - by rewrite lookup_singleton_ne.
Qed.

Lemma history_bounded_fifo_witness :
  (∃ rec' price,
      update_stock_prices (λ _, 3000) (unquoted "t1") (stocks_data example_state)
        !! "AAPL" = Some rec'
      ∧ current_price rec' = Some price
      ∧ history rec'
        = Some (last_n 24 (default [] (history AAPL_150)
                           ++ [{| h_time := "t1"; h_price := price |}])))
  ∧ (∀ cs' : list cycle,
       cs' ≠ [] →
       ∃ rec' h,
         run_cycles (λ _, 3000) cs' (stocks_data example_state) !! "AAPL"
         = Some rec'
         ∧ history rec' = Some h
         ∧ (length h ≤ 24)%nat)
  ∧ (∃ (ups : list (string * Qc)) (rec30 : stock) (h30 : list history_entry),
       length ups = 30%nat
       ∧ (∀ k : nat,
            run_cycles (λ _, 3000) (take k thirty_cycles)
              (stocks_data example_state) !! "AAPL"
            = Some (record_prices AAPL_150 (take k ups)))
       ∧ run_cycles (λ _, 3000) thirty_cycles (stocks_data example_state)
           !! "AAPL" = Some rec30
       ∧ history rec30 = Some h30
       ∧ h30 = entry_of <$> drop 6 ups
       ∧ length h30 = 24%nat
       ∧ h30 !! 0%nat = entry_of <$> ups !! 6%nat).
Proof.
  refine (history_bounded_fifo (λ _, 3000) (unquoted "t1") thirty_cycles
            (stocks_data example_state) "AAPL" AAPL_150 _ _ _).
  - reflexivity.
  - by eexists.
  - reflexivity.
Defined.



(** ** The invariants of the data model *)


























(** ** Persistence store *)

(** C8. With a JSON codec that reads back what it wrote, whenever [save_data]
    returns, [load_data] on the files it left reproduces the saved users and
    stocks dictionaries, whatever was in memory before loading. *)
Theorem load_after_save {text : Type} `{Json text (gmap string account)}
    `{Json text (gmap string stock)}
    (fault : io_fault text) (st st0 : bot_state) (d d' : disk text) :
  lossless text (gmap string account) →
  lossless text (gmap string stock) →
  save_data fault st d = (d', Return ()) →
  load_data d' st0 = st.
Proof.
  intros Hu Hs. unfold save_data.
  destruct fault; [|done..]. intros [= <-].
  unfold load_data. simpl. rewrite Hu, Hs. by destruct st.
Qed.

Lemma document_users_lossless : lossless document (gmap string account).
Proof. by intros v. Qed.

Lemma document_stocks_lossless : lossless document (gmap string stock).
Proof. by intros v. Qed.

Lemma load_after_save_witness :
  load_data (saved holder_state) initial_state = holder_state.
Proof.
  refine (load_after_save NoFault holder_state initial_state
            (saved example_state) (saved holder_state)
            document_users_lossless document_stocks_lossless _).
  reflexivity.
Defined.

(** [save_data] with a failure at the second file, within a purchase: the
    users file already holds the new ledger while the stocks file still holds
    the catalog of the previous save, so the files are neither what they were
    nor a save of the memory; the exception leaves the command in place of the
    reply.  The purchase itself stays in memory. *)
Lemma save_data_torn_and_raising :
  ∃ w' : world document,
    buy_command StocksFileFails "t1" "u1" "aapl" 10 stale_world
    = (w', Failed OSError)
    ∧ mem w' = (buy "t1" "u1" "aapl" 10 refreshed_state).1
    ∧ users_file (files w') = Some (UsersDoc (users_data (mem w')))
    ∧ stocks_file (files w') = Some (StocksDoc (stocks_data example_state))
    ∧ files w' ≠ files stale_world
    ∧ files w' ≠ saved (mem w').
Proof.
  eexists. split; [reflexivity|]. simpl.
  split; [reflexivity|]. split; [reflexivity|]. split; [reflexivity|]. split.
  - intros H.
    apply (f_equal (λ d : disk document,
                      match users_file d with
                      | Some (UsersDoc u) => portfolio <$> u !! "u1"
                      | _ => None
                      end)) in H.
    vm_compute in H. discriminate H.
  - intros H.
    apply (f_equal (λ d : disk document,
                      match stocks_file d with
                      | Some (StocksDoc m) =>
                          (λ rec : stock, this <$> current_price rec)
                            <$> m !! "AAPL"
                      | _ => None
                      end)) in H.
    vm_compute in H. discriminate H.
Qed.

(** C9, as the code has it.  [save_data] rewrites the users file and then the
    stocks file, each by an [open] for writing, which empties the file, and a
    dump, and catches nothing.  Without a failure both files hold the
    dictionaries of the memory.  A failing [open] of the users file leaves
    both files as they were; a failure while it is written leaves in it what
    had been written and the stocks file as it was; a failing [open] of the
    stocks file leaves the new users file next to the old stocks file; a
    failure while the stocks file is written leaves the new users file next
    to what had been written of the stocks file.  So the stocks file is
    touched only when the users file is complete, and every failure leaves
    [save_data] as an exception.  A buy or sell command keeps the mutation
    it applied to the memory whatever the save does, sends its reply when the
    save returns and ends with the exception when the save fails. *)
Theorem save_data_two_unguarded_writes {text : Type}
    `{Json text (gmap string account)} `{Json text (gmap string stock)}
    (fault : io_fault text) (now user_id symbol : string) (shares : Z)
    (w : world text) :
  save_data fault (mem w) (files w)
  = match fault with
    | NoFault => (saved (mem w), Return ())
    | UsersFileFails => (files w, Raise OSError)
    | UsersWriteFails written =>
        ({| users_file := Some written;
            stocks_file := stocks_file (files w) |}, Raise OSError)
    | StocksFileFails =>
        ({| users_file := Some (json_dump (users_data (mem w)));
            stocks_file := stocks_file (files w) |}, Raise OSError)
    | StocksWriteFails written =>
        ({| users_file := Some (json_dump (users_data (mem w)));
            stocks_file := Some written |}, Raise OSError)
    end
  ∧ (stocks_file (save_data fault (mem w) (files w)).1
     ≠ stocks_file (files w) →
     users_file (save_data fault (mem w) (files w)).1
     = Some (json_dump (users_data (mem w))))
  ∧ mem (buy_command fault now user_id symbol shares w).1
    = (buy now user_id symbol shares (mem w)).1
  ∧ mem (sell_command fault now user_id symbol shares w).1
    = (sell now user_id symbol shares (mem w)).1
  ∧ (∀ s n p t b,
       (buy now user_id symbol shares (mem w)).2 = PurchaseSuccessful s n p t b →
       buy_command fault now user_id symbol shares w
       = (({| mem := (buy now user_id symbol shares (mem w)).1;
              files := (save_data fault
                          (buy now user_id symbol shares (mem w)).1
                          (files w)).1 |}),
          match fault with
          | NoFault => Sent (PurchaseSuccessful s n p t b)
          | _ => Failed OSError
          end))
  ∧ (∀ s n p t b,
       (sell now user_id symbol shares (mem w)).2 = SaleSuccessful s n p t b →
       sell_command fault now user_id symbol shares w
       = (({| mem := (sell now user_id symbol shares (mem w)).1;
              files := (save_data fault
                          (sell now user_id symbol shares (mem w)).1
                          (files w)).1 |}),
          match fault with
          | NoFault => Sent (SaleSuccessful s n p t b)
          | _ => Failed OSError
          end)).
Proof.
  split; [by destruct fault|]. split; [by destruct fault|].
  unfold buy_command, sell_command, save_then_send.
  destruct (buy now user_id symbol shares (mem w)) as [stb rb].
  destruct (sell now user_id symbol shares (mem w)) as [sts rs].
  simpl. split; [|split; [|split]].
  - by destruct rb, fault.
  - by destruct rs, fault.
  - intros s n p t b ->. by destruct fault.
  - intros s n p t b ->. by destruct fault.
Qed.

(** * Further properties of the commands *)

(** ** Orders: when they succeed and what they leave alone *)

(** X1. [buy] ends with the embed of a purchase exactly when the user is
    registered, the upper-cased symbol is tracked, at least one share is
    asked for, Python evaluates [total = price * shares], finds the balance
    not below [total], evaluates [balance - total], and can format the price,
    the total and the new balance. *)
Theorem buy_succeeds_iff (now user_id symbol : string) (shares : Z)
    (st : Py.bot_state) :
  (∃ st' sym k p t b,
      Py.buy now user_id symbol shares st
      = (st', Return (Py.PurchaseSuccessful sym k p t b)))
  ↔ ∃ acc rec total new_balance,
      Py.users_data st !! user_id = Some acc
      ∧ Py.stocks_data st !! upper symbol = Some rec
      ∧ 1 ≤ shares
      ∧ Py.mul (Py.get_current_price rec) (Py.PyInt shares) = Return total
      ∧ Py.lt (Py.balance acc) total = false
      ∧ Py.sub (Py.balance acc) total = Return new_balance
      ∧ Py.formats (Py.get_current_price rec)
      ∧ Py.formats total
      ∧ Py.formats new_balance.
Proof.
  unfold Py.buy, Py.formatting, Py.formats. split.
  - intros (st' & sym & k & p & t & b & H).
    destruct (Py.users_data st !! user_id) as [acc|]; [|done].
    destruct (Py.stocks_data st !! upper symbol) as [rec|]; [|done].
    destruct (Z.leb_spec shares 0) as [?|?]; [done|].
    destruct (Py.mul _ _) as [total|] eqn:Hm; [|done].
    destruct (Py.lt _ _) eqn:Hlt.
    { destruct (Py.float_of total); [|done].
      by destruct (Py.float_of (Py.balance acc)). }
    destruct (Py.sub _ _) as [new_balance|] eqn:Hsub; [|done].
    destruct (Py.float_of (Py.get_current_price rec)) eqn:E1; [|done].
    destruct (Py.float_of total) eqn:E2; [|done].
    destruct (Py.float_of new_balance) eqn:E3; [|done].
    exists acc, rec, total, new_balance. split_and!; eauto; lia.
  - intros (acc & rec & total & new_balance & -> & -> & Hn & -> & -> & ->
            & [x ->] & [y ->] & [z ->]).
    destruct (Z.leb_spec shares 0) as [?|?]; [lia|].
    by eexists _, _, _, _, _, _.
Qed.

(** X2. [sell] ends with the embed of a sale exactly when the user is
    registered, the upper-cased symbol is tracked, at least one share is
    asked for, the portfolio holds at least that many shares of the symbol,
    Python evaluates [total = price * shares] and [balance + total], and can
    format the price, the total and the new balance. *)
Theorem sell_succeeds_iff (now user_id symbol : string) (shares : Z)
    (st : Py.bot_state) :
  (∃ st' sym k p t b,
      Py.sell now user_id symbol shares st
      = (st', Return (Py.SaleSuccessful sym k p t b)))
  ↔ ∃ acc rec held total new_balance,
      Py.users_data st !! user_id = Some acc
      ∧ Py.stocks_data st !! upper symbol = Some rec
      ∧ 1 ≤ shares
      ∧ Py.portfolio acc !! upper symbol = Some held
      ∧ shares ≤ held
      ∧ Py.mul (Py.get_current_price rec) (Py.PyInt shares) = Return total
      ∧ Py.add (Py.balance acc) total = Return new_balance
      ∧ Py.formats (Py.get_current_price rec)
      ∧ Py.formats total
      ∧ Py.formats new_balance.
Proof.
  unfold Py.sell, Py.formatting, Py.formats. split.
  - intros (st' & sym & k & p & t & b & H).
    destruct (Py.users_data st !! user_id) as [acc|]; [|done].
    destruct (Py.stocks_data st !! upper symbol) as [rec|]; [|done].
    destruct (Z.leb_spec shares 0) as [?|?]; [done|].
    destruct (Py.portfolio acc !! upper symbol) as [held|] eqn:Hh; [|done].
    destruct (Z.ltb_spec held shares) as [?|?]; [done|].
    destruct (Py.mul _ _) as [total|] eqn:Hm; [|done].
    destruct (Py.add _ _) as [new_balance|] eqn:Hadd; [|done].
    destruct (Py.float_of (Py.get_current_price rec)) eqn:E1; [|done].
    destruct (Py.float_of total) eqn:E2; [|done].
    destruct (Py.float_of new_balance) eqn:E3; [|done].
    exists acc, rec, held, total, new_balance. split_and!; eauto; lia.
  - intros (acc & rec & held & total & new_balance & -> & -> & Hn & -> & Hle
            & -> & -> & [x ->] & [y ->] & [z ->]).
    destruct (Z.leb_spec shares 0) as [?|?]; [lia|].
    destruct (Z.ltb_spec held shares) as [?|?]; [lia|].
    by eexists _, _, _, _, _, _.
Qed.

(** X3. A [register], [buy] or [sell] command that answers with anything but
    its success message has changed nothing, neither in the memory nor in
    the files. *)
Theorem refused_commands_change_nothing {text : Type}
    `{Json text (gmap string account)} `{Json text (gmap string stock)}
    (fault : io_fault text) (now user_id symbol : string) (shares : Z)
    (w : world text) :
  match (register_command fault user_id w).2 with
  | Sent (Welcome _) | Failed _ => True
  | Sent _ => (register_command fault user_id w).1 = w
  end
  ∧ match (buy_command fault now user_id symbol shares w).2 with
    | Sent (PurchaseSuccessful _ _ _ _ _) | Failed _ => True
    | Sent _ => (buy_command fault now user_id symbol shares w).1 = w
    end
  ∧ match (sell_command fault now user_id symbol shares w).2 with
    | Sent (SaleSuccessful _ _ _ _ _) | Failed _ => True
    | Sent _ => (sell_command fault now user_id symbol shares w).1 = w
    end.
Proof.
  destruct w as [st d].
  unfold register_command, buy_command, sell_command, save_then_send.
  cbn [mem files]. split; [|split].
  - unfold register. destruct (users_data st !! user_id); [done|]. simpl.
    by destruct (save_data _ _ _) as [d' []].
  - unfold buy. destruct (users_data st !! user_id); [|done].
    destruct (stocks_data st !! upper symbol); [|done].
    destruct (shares <=? 0); [done|].
    destruct (Qc_ltb _ _); [done|]. simpl.
    by destruct (save_data _ _ _) as [d' []].
  - unfold sell. destruct (users_data st !! user_id) as [acc|]; [|done].
    destruct (stocks_data st !! upper symbol); [|done].
    destruct (shares <=? 0); [done|].
    destruct (portfolio acc !! upper symbol) as [held|]; [|done].
    destruct (held <? shares); [done|]. simpl.
    by destruct (save_data _ _ _) as [d' []].
Qed.

(** X4. The ledger commands act on one account only: the catalog is returned
    as it was and the account of every other user is the same before and
    after [register], [buy] and [sell]. *)
Theorem ledger_commands_frame (now user_id symbol other : string)
    (shares : Z) (st : bot_state) :
  other ≠ user_id →
  (stocks_data (register user_id st).1 = stocks_data st
   ∧ users_data (register user_id st).1 !! other = users_data st !! other)
  ∧ (stocks_data (buy now user_id symbol shares st).1 = stocks_data st
     ∧ users_data (buy now user_id symbol shares st).1 !! other
       = users_data st !! other)
  ∧ (stocks_data (sell now user_id symbol shares st).1 = stocks_data st
     ∧ users_data (sell now user_id symbol shares st).1 !! other
       = users_data st !! other).
Proof.
  intros Hne. split; [|split].
  - unfold register. destruct (users_data st !! user_id); [done|]. simpl.
    by rewrite lookup_insert_ne.
  - unfold buy. destruct (users_data st !! user_id); [|done].
    destruct (stocks_data st !! upper symbol); [|done].
    destruct (shares <=? 0); [done|].
    destruct (Qc_ltb _ _); [done|]. simpl. by rewrite lookup_insert_ne.
  - unfold sell. destruct (users_data st !! user_id) as [acc|]; [|done].
    destruct (stocks_data st !! upper symbol); [|done].
    destruct (shares <=? 0); [done|].
    destruct (portfolio acc !! upper symbol) as [held|]; [|done].
    destruct (held <? shares); [done|]. simpl. by rewrite lookup_insert_ne.
Qed.

Lemma ledger_commands_frame_witness :
  (stocks_data (register "u2" holder_state).1 = stocks_data holder_state
   ∧ users_data (register "u2" holder_state).1 !! "u1"
     = users_data holder_state !! "u1")
  ∧ (stocks_data (buy "t5" "u2" "aapl" 3 holder_state).1
     = stocks_data holder_state
     ∧ users_data (buy "t5" "u2" "aapl" 3 holder_state).1 !! "u1"
       = users_data holder_state !! "u1")
  ∧ (stocks_data (sell "t5" "u2" "aapl" 3 holder_state).1
     = stocks_data holder_state
     ∧ users_data (sell "t5" "u2" "aapl" 3 holder_state).1 !! "u1"
       = users_data holder_state !! "u1").
Proof.
  refine (ledger_commands_frame "t5" "u2" "aapl" "u1" 3 holder_state _).
  discriminate.
Defined.

(** ** Upper-casing *)



(** ** A purchase undone by a sale *)

(** X6. Selling right away, from an unchanged catalog, the shares that a
    successful purchase bought always succeeds.  The sale has the price and
    the total of the purchase; the balance after it is the balance after the
    purchase plus that total, as Python adds them; the portfolio is back to
    what it was before the purchase; and the log has grown by the two
    transactions. *)
Theorem buy_then_sell_restores_portfolio (now1 now2 user_id symbol : string)
    (shares : Z) (st : Py.bot_state) (acc : Py.account) (rec : Py.stock)
    (b : spec_float) (total debited : Py.number) :
  Py.users_data st !! user_id = Some acc →
  Py.balance acc = Py.PyFloat b →
  Py.stocks_data st !! upper symbol = Some rec →
  1 ≤ shares →
  Py.mul (Py.get_current_price rec) (Py.PyInt shares) = Return total →
  Py.lt (Py.balance acc) total = false →
  Py.sub (Py.balance acc) total = Return debited →
  (∀ held, Py.portfolio acc !! upper symbol = Some held → 0 < held) →
  ∃ acc2 credited,
    Py.sell now2 user_id symbol shares
      (Py.buy now1 user_id symbol shares st).1
    = ({| Py.users_data := <[user_id := acc2]> (Py.users_data st);
          Py.stocks_data := Py.stocks_data st |},
       Return (Py.SaleSuccessful (upper symbol) shares
                 (Py.get_current_price rec) total credited))
    ∧ Py.add debited total = Return credited
    ∧ Py.balance acc2 = credited
    ∧ Py.portfolio acc2 = Py.portfolio acc
    ∧ Py.transactions acc2
      = Py.transactions acc
        ++ [ {| Py.tx_type := TxBuy; Py.tx_symbol := upper symbol;
                Py.tx_shares := shares;
                Py.tx_price := Py.get_current_price rec;
                Py.tx_total := total; Py.tx_timestamp := now1 |};
             {| Py.tx_type := TxSell; Py.tx_symbol := upper symbol;
                Py.tx_shares := shares;
                Py.tx_price := Py.get_current_price rec;
                Py.tx_total := total; Py.tx_timestamp := now2 |} ].
Proof.
  intros Hu Hb Hs Hn Hm Hlt Hsub Hpos.
  destruct (buy_executes now1 user_id symbol shares st acc rec b total debited
              Hu Hb Hs Hn Hm Hlt Hsub)
    as (acc1 & tx1 & -> & Hb1 & Hp1 & Ht1 & -> & _ & t & Ht & Hdeb).
  cbn [fst].
  assert (0 ≤ default 0 (Py.portfolio acc !! upper symbol)) as Hheld.
  { destruct (Py.portfolio acc !! upper symbol) as [h|] eqn:E; simpl; [|lia].
    specialize (Hpos h eq_refl). lia. }
  assert (Hadd : Py.add (Py.balance acc1) total
                 = Return (Py.PyFloat (SFadd 53 1024 (SFsub 53 1024 b t) t))).
  { rewrite Hb1, Hdeb. by apply arith_float_l_returns. }
  destruct (sell_executes now2 user_id symbol shares
              (default 0 (Py.portfolio acc !! upper symbol) + shares)
              {| Py.users_data := <[user_id := acc1]> (Py.users_data st);
                 Py.stocks_data := Py.stocks_data st |}
              acc1 rec (SFsub 53 1024 b t) total
              (Py.PyFloat (SFadd 53 1024 (SFsub 53 1024 b t) t)))
    as (acc2 & tx2 & -> & Hb2 & Hp2 & Ht2 & -> & _).
  - simpl. by rewrite lookup_insert_eq.
  - by rewrite Hb1, Hdeb.
  - done.
  - done.
  - by rewrite Hp1, lookup_insert_eq.
  - lia.
  - done.
  - done.
  - cbn [Py.users_data Py.stocks_data]. rewrite insert_insert_eq.
    exists acc2, (Py.PyFloat (SFadd 53 1024 (SFsub 53 1024 b t) t)).
    split; [done|]. split; [by rewrite <- Hb1|]. split; [done|]. split.
    + rewrite Hp2, Hp1.
      replace (default 0 (Py.portfolio acc !! upper symbol) + shares - shares)
        with (default 0 (Py.portfolio acc !! upper symbol)) by lia.
      destruct (decide (default 0 (Py.portfolio acc !! upper symbol) = 0))
        as [E0|E0].
      * rewrite delete_insert_eq. apply delete_id.
        destruct (Py.portfolio acc !! upper symbol) as [h|] eqn:E; [|done].
        specialize (Hpos h eq_refl). simpl in E0. lia.
      * rewrite insert_insert_eq. apply insert_id.
        destruct (Py.portfolio acc !! upper symbol) as [h|] eqn:E; [done|].
        by destruct E0.
    + rewrite Ht2, Ht1. by rewrite <- app_assoc.
Qed.

Lemma buy_then_sell_restores_portfolio_witness :
  ∃ acc2 credited,
    Py.sell "t2" "u1" "aapl" 10
      (Py.buy "t1" "u1" "aapl" 10
         (Py.one_account (Py.holding Py.DEFAULT_STARTING_BALANCE ∅)
            (Py.priced "AAPL" (Py.PyFloat Py.f150)))).1
    = ({| Py.users_data :=
            <["u1" := acc2]>
              {[ "u1" := Py.holding Py.DEFAULT_STARTING_BALANCE ∅ ]};
          Py.stocks_data := Py.priced "AAPL" (Py.PyFloat Py.f150) |},
       Return (Py.SaleSuccessful "AAPL" 10 (Py.PyFloat Py.f150)
                 (Py.PyFloat Py.f1500) credited))
    ∧ Py.add (Py.PyFloat Py.f8500) (Py.PyFloat Py.f1500) = Return credited
    ∧ Py.balance acc2 = credited
    ∧ Py.portfolio acc2 = ∅
    ∧ Py.transactions acc2
      = [] ++ [ {| Py.tx_type := TxBuy; Py.tx_symbol := "AAPL";
                   Py.tx_shares := 10; Py.tx_price := Py.PyFloat Py.f150;
                   Py.tx_total := Py.PyFloat Py.f1500;
                   Py.tx_timestamp := "t1" |};
                {| Py.tx_type := TxSell; Py.tx_symbol := "AAPL";
                   Py.tx_shares := 10; Py.tx_price := Py.PyFloat Py.f150;
                   Py.tx_total := Py.PyFloat Py.f1500;
                   Py.tx_timestamp := "t2" |} ].
Proof.
  refine (buy_then_sell_restores_portfolio "t1" "t2" "u1" "aapl" 10
            (Py.one_account (Py.holding Py.DEFAULT_STARTING_BALANCE ∅)
               (Py.priced "AAPL" (Py.PyFloat Py.f150)))
            (Py.holding Py.DEFAULT_STARTING_BALANCE ∅)
            {| Py.current_price := Some (Py.PyFloat Py.f150);
               Py.history :=
                 Some [{| Py.h_time := "t0";
                          Py.h_price := Py.PyFloat Py.f150 |}];
               Py.percent_change := Some (Py.PyFloat Py.f0) |}
            (S754_finite false 5497558138880000 (-39))
            (Py.PyFloat Py.f1500) (Py.PyFloat Py.f8500)
            _ _ _ _ _ _ _ _).
  - reflexivity.
  - reflexivity.
  - reflexivity.
  - lia.
  - by vm_compute.
  - by vm_compute.
  - by vm_compute.
  - intros held E. vm_compute in E. discriminate E.
Defined.

(** ** Runs: what an account and its log go through *)

Lemma register_inv (user_id u' : string) (st : bot_state) (a' : account) :
  users_data (register user_id st).1 !! u' = Some a' →
  users_data st !! u' = Some a'
  ∨ (u' = user_id
     ∧ a' = {| balance := DEFAULT_STARTING_BALANCE; portfolio := ∅;
               transactions := [] |}).
Proof.
  unfold register. destruct (users_data st !! user_id); [by left|]. simpl.
  rewrite lookup_insert. destruct (decide (user_id = u')) as [<-|]; [|by left].
  intros [= <-]. by right.
Qed.

Lemma buy_inv (now user_id symbol u' : string) (shares : Z) (st : bot_state)
    (a' : account) :
  users_data (buy now user_id symbol shares st).1 !! u' = Some a' →
  users_data st !! u' = Some a'
  ∨ ∃ acc rec,
      u' = user_id
      ∧ users_data st !! user_id = Some acc
      ∧ stocks_data st !! upper symbol = Some rec
      ∧ 1 ≤ shares
      ∧ a' = {| balance :=
                  (balance acc
                   - times_shares (get_current_price rec) shares)%Qc;
                portfolio :=
                  <[upper symbol :=
                      default 0 (portfolio acc !! upper symbol) + shares]>
                    (portfolio acc);
                transactions :=
                  transactions acc
                  ++ [{| tx_type := TxBuy; tx_symbol := upper symbol;
                         tx_shares := shares;
                         tx_price := get_current_price rec;
                         tx_total :=
                           times_shares (get_current_price rec) shares;
                         tx_timestamp := now |}] |}.
Proof.
  unfold buy. destruct (users_data st !! user_id) as [acc|] eqn:Hu; [|by left].
  destruct (stocks_data st !! upper symbol) as [rec|] eqn:Hs; [|by left].
  destruct (Z.leb_spec shares 0) as [?|?]; [by left|].
  destruct (Qc_ltb _ _); [by left|]. simpl.
  rewrite lookup_insert. destruct (decide (user_id = u')) as [<-|]; [|by left].
  intros [= <-]. right. exists acc, rec.
  erewrite buy_portfolio by done. split_and!; try done; lia.
Qed.

Lemma sell_inv (now user_id symbol u' : string) (shares : Z) (st : bot_state)
    (a' : account) :
  users_data (sell now user_id symbol shares st).1 !! u' = Some a' →
  users_data st !! u' = Some a'
  ∨ ∃ acc rec held,
      u' = user_id
      ∧ users_data st !! user_id = Some acc
      ∧ stocks_data st !! upper symbol = Some rec
      ∧ 1 ≤ shares
      ∧ portfolio acc !! upper symbol = Some held
      ∧ shares ≤ held
      ∧ a' = {| balance :=
                  (balance acc
                   + times_shares (get_current_price rec) shares)%Qc;
                portfolio :=
                  if decide (held - shares = 0)
                  then delete (upper symbol) (portfolio acc)
                  else <[upper symbol := held - shares]> (portfolio acc);
                transactions :=
                  transactions acc
                  ++ [{| tx_type := TxSell; tx_symbol := upper symbol;
                         tx_shares := shares;
                         tx_price := get_current_price rec;
                         tx_total :=
                           times_shares (get_current_price rec) shares;
                         tx_timestamp := now |}] |}.
Proof.
  unfold sell. destruct (users_data st !! user_id) as [acc|] eqn:Hu; [|by left].
  destruct (stocks_data st !! upper symbol) as [rec|] eqn:Hs; [|by left].
  destruct (Z.leb_spec shares 0) as [?|?]; [by left|].
  destruct (portfolio acc !! upper symbol) as [held|] eqn:Hh; [|by left].
  destruct (Z.ltb_spec held shares) as [?|?]; [by left|]. simpl.
  rewrite lookup_insert. destruct (decide (user_id = u')) as [<-|]; [|by left].
  intros [= <-]. right. exists acc, rec, held.
  split_and!; try done; try lia. f_equal.
  rewrite lookup_insert_eq.
  destruct (decide (Some (held - shares) = Some 0)) as [E|E];
    destruct (decide (held - shares = 0)) as [E'|E']; try congruence.
  apply delete_insert_eq.
Qed.

Lemma add_stock_users (hash : string → Z) (quote : option Qc) (rnd : Qc)
    (now symbol : string) (price : option Qc) (st st' : bot_state) (r : reply) :
  add_stock hash quote rnd now symbol price st = Return (st', r) →
  users_data st' = users_data st.
Proof.
  unfold add_stock.
  destruct (match price with
            | Some p => Return (p, stocks_data st)
            | None => _
            end) as [[p stocks1]|e]; [|done].
  by intros [= <- _].
Qed.

Lemma run_command_users (hash : string → Z) (c : command) (st : bot_state) :
  match c with
  | AddStock _ _ _ _ _ | UpdateStockPrices _ =>
      users_data (run_command hash c st) = users_data st
  | _ => True
  end.
Proof.
  destruct c as [| | |q rnd now s p|cy]; try done. simpl.
  destruct (add_stock hash q rnd now s p st) as [[st' r]|e] eqn:E; [|done].
  by eapply add_stock_users.
Qed.

Lemma net_shares_snoc (symbol : string) (txs : list transaction)
    (tx : transaction) :
  net_shares symbol (txs ++ [tx]) = net_shares symbol txs + signed_shares symbol tx.
Proof.
  induction txs as [|t txs IH]; simpl; [lia|]. fold (net_shares symbol (txs ++ [tx])).
  fold (net_shares symbol txs). lia.
Qed.

Lemma run_command_reconciled (hash : string → Z) (c : command)
    (st : bot_state) :
  (∀ u a, users_data st !! u = Some a → reconciled a) →
  ∀ u a, users_data (run_command hash c st) !! u = Some a → reconciled a.
Proof.
  intros Hst u a. pose proof (run_command_users hash c st) as Husers.
  destruct c as [uid|now uid s n|now uid s n|q rnd now s p|cy];
    [| | |rewrite Husers; apply Hst..]; simpl.
  - intros [H|[-> ->]]%register_inv; [by eapply Hst|].
    intros symbol. simpl. by rewrite lookup_empty.
  - intros [H|(acc & rec & -> & Hu & Hs & Hn & ->)]%buy_inv; [by eapply Hst|].
    specialize (Hst _ _ Hu). intros symbol. simpl.
    rewrite net_shares_snoc, <- (Hst symbol). unfold signed_shares. simpl.
    destruct (decide (upper s = symbol)) as [<-|Hne].
    + by rewrite lookup_insert_eq.
    + rewrite lookup_insert_ne by done. lia.
  - intros [H|(acc & rec & held & -> & Hu & Hs & Hn & Hh & Hle & ->)]%sell_inv;
      [by eapply Hst|].
    specialize (Hst _ _ Hu). intros symbol. simpl.
    rewrite net_shares_snoc, <- (Hst symbol). unfold signed_shares. simpl.
    destruct (decide (upper s = symbol)) as [<-|Hne].
    + rewrite Hh. simpl. destruct (decide (held - n = 0)).
      * rewrite lookup_delete_eq. simpl. lia.
      * rewrite lookup_insert_eq. simpl. lia.
    + destruct (decide (held - n = 0)).
      * rewrite lookup_delete_ne by done. lia.
      * rewrite lookup_insert_ne by done. lia.
Qed.

(** X7. Along every run from a ledger in which portfolios agree with the
    logs (the empty ledger does), the portfolio of every account still agrees
    with its log: the shares it holds of a symbol are the shares its logged
    purchases bought minus the shares its logged sales sold, and 0 for a
    symbol that is not in the portfolio. *)
Theorem holdings_match_the_log (hash : string → Z) (cs : list command)
    (st : bot_state) (user_id symbol : string) (acc : account) :
  (∀ u a, users_data st !! u = Some a → reconciled a) →
  users_data (run hash cs st) !! user_id = Some acc →
  default 0 (portfolio acc !! symbol) = net_shares symbol (transactions acc).
Proof.
  intros Hst Hu. revert st Hst Hu.
  induction cs as [|c cs IH]; intros st Hst Hu.
  - by apply (Hst user_id).
  - simpl in Hu. apply (IH (run_command hash c st)); [|done].
    by apply run_command_reconciled.
Qed.

Lemma holdings_match_the_log_witness :
  default 0 (portfolio scenario_account !! "AAPL")
  = net_shares "AAPL" (transactions scenario_account).
Proof.
  refine (holdings_match_the_log (λ _, 3000) scenario initial_state "u1" "AAPL"
            scenario_account _ _).
  - intros u a H. vm_compute in H. discriminate H.
  - vm_compute. reflexivity.
Defined.

(** ** Runs: what the catalog goes through *)

Lemma ledger_command_stocks (now user_id symbol : string) (shares : Z)
    (st : bot_state) :
  stocks_data (register user_id st).1 = stocks_data st
  ∧ stocks_data (buy now user_id symbol shares st).1 = stocks_data st
  ∧ stocks_data (sell now user_id symbol shares st).1 = stocks_data st.
Proof.
  split; [|split].
  - unfold register. by destruct (users_data st !! user_id).
  - unfold buy. destruct (users_data st !! user_id); [|done].
    destruct (stocks_data st !! upper symbol); [|done].
    destruct (shares <=? 0); [done|]. by destruct (Qc_ltb _ _).
  - unfold sell. destruct (users_data st !! user_id) as [acc|]; [|done].
    destruct (stocks_data st !! upper symbol); [|done].
    destruct (shares <=? 0); [done|].
    destruct (portfolio acc !! upper symbol) as [held|]; [|done].
    by destruct (held <? shares).
Qed.

(** What a completed [add_stock] has done. *)
Lemma add_stock_inv (hash : string → Z) (quote : option Qc) (rnd : Qc)
    (now symbol : string) (price : option Qc) (st st' : bot_state) (r : reply) :
  add_stock hash quote rnd now symbol price st = Return (st', r) →
  ∃ p : Qc,
    r = StockAdded (upper symbol) p
    ∧ users_data st' = users_data st
    ∧ stocks_data st' !! upper symbol = Some (new_stock now p)
    ∧ ∀ s, s ≠ upper symbol → stocks_data st' !! s = stocks_data st !! s.
Proof.
  unfold add_stock.
  assert (∀ (p : Qc) (stocks1 : gmap string stock),
            (∀ s, s ≠ upper symbol → stocks1 !! s = stocks_data st !! s) →
            ∀ s, s ≠ upper symbol →
                 <[upper symbol := new_stock now p]> stocks1 !! s
                 = stocks_data st !! s) as Hother.
  { intros p stocks1 H1 s Hne. rewrite lookup_insert_ne by done. by apply H1. }
  destruct price as [p|]; [|destruct quote as [p|]].
  - intros [= <- <-]. exists p. simpl. rewrite lookup_insert_eq.
    split_and!; try done. by apply Hother.
  - intros [= <- <-]. exists p. simpl. rewrite lookup_insert_eq.
    split_and!; try done. by apply Hother.
  - unfold generate_mock_price.
    destruct (stocks_data st !! upper symbol) as [rec|] eqn:Hs.
    + destruct (current_price rec) as [current|]; [|done].
      intros [= <- <-]. eexists. simpl. rewrite lookup_insert_eq.
      split_and!; try done. by apply Hother.
    + intros [= <- <-]. eexists. simpl. rewrite lookup_insert_eq.
      split_and!; try done. apply Hother. intros s Hne.
      by rewrite lookup_insert_ne.
Qed.

Lemma run_command_tracked (hash : string → Z) (c : command) (st : bot_state)
    (s : string) :
  is_Some (stocks_data st !! s) →
  is_Some (stocks_data (run_command hash c st) !! s).
Proof.
  intros Hs. destruct c as [uid|now uid sym n|now uid sym n|q rnd now sym p|cy];
    simpl.
  - by rewrite (proj1 (ledger_command_stocks "" uid "" 0 st)).
  - by rewrite (proj1 (proj2 (ledger_command_stocks now uid sym n st))).
  - by rewrite (proj2 (proj2 (ledger_command_stocks now uid sym n st))).
  - destruct (add_stock hash q rnd now sym p st) as [[st' r]|e] eqn:E; [|done].
    destruct (add_stock_inv _ _ _ _ _ _ _ _ _ E) as (p' & _ & _ & Hnew & Hother).
    destruct (decide (s = upper sym)) as [->|Hne]; [by rewrite Hnew|].
    by rewrite Hother.
  - rewrite update_stock_prices_lookup. destruct Hs as [rec ->]. by eexists.
Qed.

Lemma record_price_complete (timestamp : string) (price : Qc) (rec : stock) :
  record_complete (record_price timestamp price rec).
Proof.
  eexists _, _, _. split; [done|]. split; [apply record_price_history|].
  split; [done|]. split.
  - rewrite length_last_n. lia.
  - unfold last_n. rewrite drop_app_le.
    + by rewrite last_snoc.
    + rewrite length_app. simpl. lia.
Qed.

Lemma run_command_complete (hash : string → Z) (c : command) (st : bot_state) :
  catalog_complete (stocks_data st) →
  catalog_complete (stocks_data (run_command hash c st)).
Proof.
  intros Hst. destruct c as [uid|now uid sym n|now uid sym n|q rnd now sym p|cy];
    simpl.
  - by rewrite (proj1 (ledger_command_stocks "" uid "" 0 st)).
  - by rewrite (proj1 (proj2 (ledger_command_stocks now uid sym n st))).
  - by rewrite (proj2 (proj2 (ledger_command_stocks now uid sym n st))).
  - destruct (add_stock hash q rnd now sym p st) as [[st' r]|e] eqn:E; [|done].
    destruct (add_stock_inv _ _ _ _ _ _ _ _ _ E) as (p' & _ & _ & Hnew & Hother).
    intros s rec. destruct (decide (s = upper sym)) as [->|Hne].
    + rewrite Hnew. intros [= <-]. eexists _, _, _.
      split_and!; try done. simpl. lia.
    + rewrite Hother by done. apply Hst.
  - intros s rec'. rewrite update_stock_prices_lookup.
    destruct (stocks_data st !! s) as [rec|] eqn:Hs; [|done]. simpl.
    intros [= <-]. unfold refresh_record.
    destruct (refreshed_price cy s rec); [|by eapply Hst].
    apply record_price_complete.
Qed.

(** X8. From a catalog of complete records (the empty one is), every run
    leaves a catalog of complete records: each tracked symbol has a current
    price, a percent change, and a history of at least one and at most 24
    entries whose last entry carries the current price. *)
Theorem catalog_stays_complete (hash : string → Z) (cs : list command)
    (st : bot_state) (s : string) (rec : stock) :
  catalog_complete (stocks_data st) →
  stocks_data (run hash cs st) !! s = Some rec →
  ∃ (p : Qc) (h : list history_entry) (pc : Qc) (e : history_entry),
    current_price rec = Some p
    ∧ history rec = Some h
    ∧ percent_change rec = Some pc
    ∧ (1 ≤ length h ≤ 24)%nat
    ∧ last h = Some e
    ∧ h_price e = p.
Proof.
  intros Hst Hs.
  assert (catalog_complete (stocks_data (run hash cs st))) as Hrun.
  { clear Hs. revert st Hst. induction cs as [|c cs IH]; intros st Hst; [done|].
    simpl. apply IH. by apply run_command_complete. }
  destruct (Hrun s rec Hs) as (p & h & pc & Hp & Hh & Hpc & Hlen & Hlast).
  destruct (last h) as [e|] eqn:He; [|done]. injection Hlast as Hlast.
  exists p, h, pc, e. split_and!; try done.
  destruct h; [done|]. simpl. lia.
Qed.

Lemma catalog_stays_complete_witness :
  ∃ (p : Qc) (h : list history_entry) (pc : Qc) (e : history_entry),
    current_price (record_price "t2" (Qc_of_Z 165) (new_stock "t0" (Qc_of_Z 150)))
    = Some p
    ∧ history (record_price "t2" (Qc_of_Z 165) (new_stock "t0" (Qc_of_Z 150)))
      = Some h
    ∧ percent_change
        (record_price "t2" (Qc_of_Z 165) (new_stock "t0" (Qc_of_Z 150)))
      = Some pc
    ∧ (1 ≤ length h ≤ 24)%nat
    ∧ last h = Some e
    ∧ h_price e = p.
Proof.
  refine (catalog_stays_complete (λ _, 3000) scenario initial_state "AAPL"
            (record_price "t2" (Qc_of_Z 165) (new_stock "t0" (Qc_of_Z 150)))
            _ _).
  - intros s rec H. vm_compute in H. discriminate H.
  - vm_compute. reflexivity.
Defined.

(** ** Runs: the log *)





Lemma run_command_grows (hash : string → Z) (c : command) (st : bot_state)
    (user_id : string) (acc : account) :
  users_data st !! user_id = Some acc →
  ∃ acc',
    users_data (run_command hash c st) !! user_id = Some acc'
    ∧ transactions acc `prefix_of` transactions acc'.
Proof.
  intros Hu. pose proof (run_command_users hash c st) as Husers.
  destruct c as [uid|now uid s n|now uid s n|q rnd now s p|cy];
    [| | |rewrite Husers; by exists acc..]; simpl.
  - unfold register. destruct (users_data st !! uid) eqn:E; [by exists acc|].
    simpl. rewrite lookup_insert_ne by congruence. by exists acc.
  - unfold buy. destruct (users_data st !! uid) as [a|] eqn:E; [|by exists acc].
    destruct (stocks_data st !! upper s); [|by exists acc].
    destruct (n <=? 0); [by exists acc|].
    destruct (Qc_ltb _ _); [by exists acc|]. simpl.
    destruct (decide (uid = user_id)) as [->|Hne].
    + rewrite lookup_insert_eq. eexists. split; [done|]. simpl.
      assert (a = acc) as -> by congruence. by apply prefix_app_r.
    + rewrite lookup_insert_ne by done. by exists acc.
  - unfold sell. destruct (users_data st !! uid) as [a|] eqn:E; [|by exists acc].
    destruct (stocks_data st !! upper s); [|by exists acc].
    destruct (n <=? 0); [by exists acc|].
    destruct (portfolio a !! upper s) as [held|]; [|by exists acc].
    destruct (held <? n); [by exists acc|]. simpl.
    destruct (decide (uid = user_id)) as [->|Hne].
    + rewrite lookup_insert_eq. eexists. split; [done|]. simpl.
      assert (a = acc) as -> by congruence. by apply prefix_app_r.
    + rewrite lookup_insert_ne by done. by exists acc.
Qed.

(** X10. Nothing is ever removed or rewritten: along every run a registered
    account stays registered and its log only grows at the end (the old log
    is a prefix of the new one), and a tracked symbol stays tracked. *)
Theorem accounts_logs_and_symbols_persist (hash : string → Z)
    (cs : list command) (st : bot_state) (user_id s : string) (acc : account)
    (rec : stock) :
  users_data st !! user_id = Some acc →
  stocks_data st !! s = Some rec →
  (∃ acc',
      users_data (run hash cs st) !! user_id = Some acc'
      ∧ transactions acc `prefix_of` transactions acc')
  ∧ is_Some (stocks_data (run hash cs st) !! s).
Proof.
  intros Hu Hs. split.
  - clear Hs. revert st acc Hu. induction cs as [|c cs IH]; intros st acc Hu.
    + by exists acc.
    + simpl. destruct (run_command_grows hash c st user_id acc Hu)
        as (acc1 & Hu1 & Hpre).
      destruct (IH _ _ Hu1) as (acc' & Hu' & Hpre').
      exists acc'. split; [done|]. by etrans.
  - assert (is_Some (stocks_data st !! s)) as H by by eexists.
    clear Hs Hu. revert st H. induction cs as [|c cs IH]; intros st H; [done|].
    simpl. apply IH. by apply run_command_tracked.
Qed.

Lemma accounts_logs_and_symbols_persist_witness :
  (∃ acc',
      users_data
        (run (λ _, 3000) [Register "u1"; Sell "t3" "u1" "aapl" 4] holder_state)
        !! "u1" = Some acc'
      ∧ transactions holder_account `prefix_of` transactions acc')
  ∧ is_Some
      (stocks_data
         (run (λ _, 3000) [Register "u1"; Sell "t3" "u1" "aapl" 4] holder_state)
         !! "AAPL").
Proof.
  refine (accounts_logs_and_symbols_persist (λ _, 3000)
            [Register "u1"; Sell "t3" "u1" "aapl" 4] holder_state "u1" "AAPL"
            holder_account AAPL_150 _ _).
  - reflexivity.
  - reflexivity.
Defined.

(** ** The refresh cycle, symbol by symbol *)

(** X11. A refresh cycle neither adds nor removes a symbol, and what it makes
    of one symbol depends on the record and the inputs of that symbol alone:
    the record is replaced by [record_price] at the quote, or at the perturbed
    stored price when there is no quote, and is left as it is when there is
    neither a quote nor a stored price. *)
Theorem refresh_cycle_is_pointwise (hash : string → Z) (c : cycle)
    (stocks : gmap string stock) :
  dom (update_stock_prices hash c stocks) = dom stocks
  ∧ ∀ s : string,
      update_stock_prices hash c stocks !! s
      = (λ rec : stock,
           match quote_of c s, current_price rec with
           | Some price, _ => record_price (clock_of c s) price rec
           | None, Some current =>
               record_price (clock_of c s)
                 (round2 (current
                          * (1 + (rnd_of c s - Q2Qc (1 # 2)) * Q2Qc (5 # 100)))%Qc)
                 rec
           | None, None => rec
           end) <$> stocks !! s.
Proof.
  split.
  - apply set_eq. intros s. rewrite !elem_of_dom, update_stock_prices_lookup.
    by rewrite fmap_is_Some.
  - intros s. rewrite update_stock_prices_lookup.
    destruct (stocks !! s) as [rec|]; [|done]. simpl. f_equal.
    unfold refresh_record, refreshed_price.
    destruct (quote_of c s); [done|]. by destruct (current_price rec).
Qed.

(** X12. A symbol whose refresh fails (no quote, and no stored price for the
    mock generator) keeps its record untouched, and the failure stops
    nothing: in the same cycle every other symbol with a quote gets the quote
    recorded. *)
Theorem failed_refresh_is_isolated (hash : string → Z) (c : cycle)
    (stocks : gmap string stock) (s s' : string) (rec rec' : stock) (p : Qc) :
  stocks !! s = Some rec →
  current_price rec = None →
  quote_of c s = None →
  stocks !! s' = Some rec' →
  quote_of c s' = Some p →
  update_stock_prices hash c stocks !! s = Some rec
  ∧ update_stock_prices hash c stocks !! s'
    = Some (record_price (clock_of c s') p rec').
Proof.
  intros Hs Hcur Hq Hs' Hq'. rewrite !update_stock_prices_lookup, Hs, Hs'.
  simpl. unfold refresh_record, refreshed_price. by rewrite Hq, Hcur, Hq'.
Qed.

Lemma failed_refresh_is_isolated_witness :
  update_stock_prices (λ _, 3000) only_AAPL_quoted mixed_catalog !! "XYZ"
  = Some priceless
  ∧ update_stock_prices (λ _, 3000) only_AAPL_quoted mixed_catalog !! "AAPL"
    = Some (record_price "t2" (Qc_of_Z 165) AAPL_150).
Proof.
  refine (failed_refresh_is_isolated (λ _, 3000) only_AAPL_quoted mixed_catalog
            "XYZ" "AAPL" priceless AAPL_150 (Qc_of_Z 165) _ _ _ _ _);
    reflexivity.
Defined.

(** ** Adding a stock *)

(** X13. [add_stock] either completes or raises.  When it completes, the
    users are untouched and the catalog is the old one with the record of the
    upper-cased symbol replaced by a fresh one (one history entry, percent
    change 0) at the given price, else at the quote, else at the mock price;
    whatever record the symbol had is gone, and no other trace of the pricing
    remains.  It raises only when no price is given, no quote is available and
    the symbol has a record without a price. *)
Theorem add_stock_outcome (hash : string → Z) (quote : option Qc) (rnd : Qc)
    (now symbol : string) (price : option Qc) (st : bot_state) :
  match add_stock hash quote rnd now symbol price st with
  | Return (st', r) =>
      ∃ p : Qc,
        r = StockAdded (upper symbol) p
        ∧ users_data st' = users_data st
        ∧ stocks_data st' = <[upper symbol := new_stock now p]> (stocks_data st)
        ∧ match price, quote with
          | Some given, _ => p = given
          | None, Some quoted => p = quoted
          | None, None =>
              ∃ stocks1,
                generate_mock_price hash rnd (upper symbol) (stocks_data st)
                = Return (p, stocks1)
          end
  | Raise e =>
      price = None ∧ quote = None
      ∧ ∃ rec,
          stocks_data st !! upper symbol = Some rec ∧ current_price rec = None
  end.
Proof.
  unfold add_stock. destruct price as [p|]; [|destruct quote as [p|]].
  - by exists p.
  - by exists p.
  - unfold generate_mock_price.
    destruct (stocks_data st !! upper symbol) as [rec|] eqn:Hs.
    + destruct (current_price rec) as [current|] eqn:Hc.
      * eexists. split_and!; try done. by eexists.
      * split_and!; try done. by exists rec.
    + eexists. split_and!; try done; simpl.
      * by rewrite insert_insert_eq.
      * by eexists.
Qed.

(** ** The mock generator and its rounding *)











(** ** Memory and files *)

Lemma update_stock_prices_empty (hash : string → Z) (c : cycle) :
  update_stock_prices hash c ∅ = ∅.
Proof. unfold update_stock_prices. by rewrite map_to_list_empty. Qed.

Lemma step_world_mem {text : Type} `{Json text (gmap string account)}
    `{Json text (gmap string stock)}
    (hash : string → Z) (w : world text) (fc : io_fault text * command) :
  mem (step_world hash w fc) = run_command hash fc.2 (mem w).
Proof.
  destruct fc as [fault c]. unfold step_world. simpl.
  destruct c as [uid|now uid s n|now uid s n|q rnd now s p|cy]; simpl.
  - unfold register_command, save_then_send.
    destruct (register uid (mem w)) as [st' r]. simpl.
    destruct r; try done. by destruct (save_data fault st' (files w)).
  - unfold buy_command, save_then_send.
    destruct (buy now uid s n (mem w)) as [st' r]. simpl.
    destruct r; try done. by destruct (save_data fault st' (files w)).
  - unfold sell_command, save_then_send.
    destruct (sell now uid s n (mem w)) as [st' r]. simpl.
    destruct r; try done. by destruct (save_data fault st' (files w)).
  - unfold add_stock_command, save_then_send.
    destruct (add_stock hash q rnd now s p (mem w)) as [[st' r]|e]; [|done].
    by destruct (save_data fault st' (files w)).
  - unfold update_command.
    destruct (decide (stocks_data (mem w) = ∅)) as [E|E].
    + simpl. rewrite E, update_stock_prices_empty.
      destruct (mem w) as [u sd]. simpl in *. by rewrite E.
    + by destruct (save_data fault _ (files w)).
Qed.

(** X16. What the memory holds does not depend on the saving: after a run of
    whole commands, each with a save that works or fails at either file, the
    dictionaries in memory are those of the same commands run without any
    file at all. *)
Theorem memory_does_not_depend_on_saving {text : Type}
    `{Json text (gmap string account)} `{Json text (gmap string stock)}
    (hash : string → Z) (fcs : list (io_fault text * command)) (w : world text) :
  mem (run_world hash fcs w) = run hash fcs.*2 (mem w).
Proof.
  revert w. induction fcs as [|fc fcs IH]; intros w; [done|].
  change (mem (run_world hash fcs (step_world hash w fc))
          = run hash fcs.*2 (run_command hash fc.2 (mem w))).
  by rewrite IH, step_world_mem.
Qed.

Lemma refusals_keep_memory (now uid s : string) (n : Z) (st : bot_state) :
  (match (register uid st).2 with
   | Welcome _ => True
   | _ => (register uid st).1 = st
   end)
  ∧ (match (buy now uid s n st).2 with
     | PurchaseSuccessful _ _ _ _ _ => True
     | _ => (buy now uid s n st).1 = st
     end)
  ∧ (match (sell now uid s n st).2 with
     | SaleSuccessful _ _ _ _ _ => True
     | _ => (sell now uid s n st).1 = st
     end).
Proof.
  split; [|split].
  - unfold register. by destruct (users_data st !! uid).
  - unfold buy. destruct (users_data st !! uid); [|done].
    destruct (stocks_data st !! upper s); [|done].
    destruct (n <=? 0); [done|]. by destruct (Qc_ltb _ _).
  - unfold sell. destruct (users_data st !! uid) as [acc|]; [|done].
    destruct (stocks_data st !! upper s); [|done].
    destruct (n <=? 0); [done|].
    destruct (portfolio acc !! upper s) as [held|]; [|done].
    by destruct (held <? n).
Qed.

Lemma step_world_sync {text : Type} `{Json text (gmap string account)}
    `{Json text (gmap string stock)}
    (hash : string → Z) (w : world text) (c : command) :
  in_sync w → in_sync (step_world hash w (NoFault, c)).
Proof.
  intros Hw. unfold step_world, in_sync in *. simpl.
  destruct c as [uid|now uid s n|now uid s n|q rnd now s p|cy]; simpl.
  - unfold register_command, save_then_send.
    pose proof (proj1 (refusals_keep_memory "" uid "" 0 (mem w))) as Hk.
    destruct (register uid (mem w)) as [st' r]. simpl in *.
    destruct r; simpl; try (by rewrite Hk); done.
  - unfold buy_command, save_then_send.
    pose proof (proj1 (proj2 (refusals_keep_memory now uid s n (mem w)))) as Hk.
    destruct (buy now uid s n (mem w)) as [st' r]. simpl in *.
    destruct r; simpl; try (by rewrite Hk); done.
  - unfold sell_command, save_then_send.
    pose proof (proj2 (proj2 (refusals_keep_memory now uid s n (mem w)))) as Hk.
    destruct (sell now uid s n (mem w)) as [st' r]. simpl in *.
    destruct r; simpl; try (by rewrite Hk); done.
  - unfold add_stock_command, save_then_send.
    by destruct (add_stock hash q rnd now s p (mem w)) as [[st' r]|e].
  - unfold update_command.
    by destruct (decide (stocks_data (mem w) = ∅)).
Qed.

(** X17. While no save fails, the files keep up with the memory: from a
    process whose files hold its memory, after every run of whole commands
    the files hold the memory again, so that with a codec that reads back
    what it wrote [load_data] returns exactly the dictionaries in memory. *)
Theorem files_keep_up_with_memory {text : Type}
    `{Json text (gmap string account)} `{Json text (gmap string stock)}
    (hash : string → Z) (cs : list command) (w : world text) (st0 : bot_state) :
  lossless text (gmap string account) →
  lossless text (gmap string stock) →
  in_sync w →
  files (run_world hash ((λ c, (NoFault, c)) <$> cs) w)
  = saved (mem (run_world hash ((λ c, (NoFault, c)) <$> cs) w))
  ∧ load_data (files (run_world hash ((λ c, (NoFault, c)) <$> cs) w)) st0
    = mem (run_world hash ((λ c, (NoFault, c)) <$> cs) w).
Proof.
  intros Hu Hs Hw.
  assert (in_sync (run_world hash ((λ c, (NoFault, c)) <$> cs) w)) as Hsync.
  { revert w Hw. induction cs as [|c cs IH]; intros w Hw; [done|].
    simpl. apply IH. by apply step_world_sync. }
  split; [done|]. rewrite Hsync. unfold load_data, saved. simpl.
  rewrite Hu, Hs. simpl. by destruct (mem _).
Qed.

Lemma files_keep_up_with_memory_witness :
  files (run_world (λ _, 3000) ((λ c, (NoFault, c)) <$> scenario)
           {| mem := initial_state; files := saved initial_state |})
  = saved (mem (run_world (λ _, 3000) ((λ c, (NoFault, c)) <$> scenario)
                  {| mem := initial_state; files := saved initial_state |}))
  ∧ load_data
      (files (run_world (λ _, 3000) ((λ c, (NoFault, c)) <$> scenario)
                {| mem := initial_state; files := saved initial_state |}))
      example_state
    = mem (run_world (λ _, 3000) ((λ c, (NoFault, c)) <$> scenario)
             {| mem := initial_state; files := saved initial_state |}).
Proof.
  refine (files_keep_up_with_memory (text := document) (λ _, 3000) scenario
            {| mem := initial_state; files := saved initial_state |}
            example_state document_users_lossless document_stocks_lossless _).
  reflexivity.
Defined.

(** ** Start-up *)

Lemma seed_default_lookup (hash : string → Z) (rnd : Qc)
    (clock : string → string) (stocks : gmap string stock) (a s : string) :
  seed_default hash rnd clock stocks a !! s
  = match stocks !! s with
    | Some rec => Some rec
    | None =>
        if decide (s = a)
        then Some (new_stock (clock s) (Qc_of_Z (hash s mod 1000)))
        else None
    end.
Proof.
  unfold seed_default, generate_mock_price.
  destruct (stocks !! a) as [ra|] eqn:Ha.
  - destruct (stocks !! s) as [rec|] eqn:Hs; [done|].
    destruct (decide (s = a)) as [->|]; [congruence|done].
  - destruct (decide (s = a)) as [->|Hne].
    + by rewrite Ha, lookup_insert_eq.
    + rewrite !lookup_insert_ne by done. by destruct (stocks !! s).
Qed.

Lemma seed_loop_lookup (hash : string → Z) (rnd : Qc)
    (clock : string → string) (symbols : list string)
    (stocks : gmap string stock) (s : string) :
  foldl (seed_default hash rnd clock) stocks symbols !! s
  = match stocks !! s with
    | Some rec => Some rec
    | None =>
        if decide (s ∈ symbols)
        then Some (new_stock (clock s) (Qc_of_Z (hash s mod 1000)))
        else None
    end.
Proof.
  revert stocks. induction symbols as [|a symbols IH]; intros stocks.
  - simpl. destruct (stocks !! s); [done|].
    destruct (decide (s ∈ [])) as [H|H]; [|done]. by apply elem_of_nil in H.
  - simpl. rewrite IH, seed_default_lookup.
    destruct (stocks !! s) as [rec|]; [done|].
    destruct (decide (s = a)) as [->|Hne].
    + by rewrite decide_True by apply list_elem_of_here.
    + destruct (decide (s ∈ symbols)) as [Hs|Hs].
      * by rewrite decide_True by by apply list_elem_of_further.
      * rewrite decide_False; [done|]. by intros [?|?]%elem_of_cons.
Qed.

Lemma on_ready_mem {text : Type} `{Json text (gmap string account)}
    `{Json text (gmap string stock)}
    (fault : io_fault text) (hash : string → Z) (rnd : Qc) (clock : string → string)
    (w : world text) :
  mem (on_ready fault hash rnd clock w).1
  = {| users_data := users_data (load_data (files w) (mem w));
       stocks_data :=
         foldl (seed_default hash rnd clock)
           (stocks_data (load_data (files w) (mem w)))
           DEFAULT_STOCK_SYMBOLS |}.
Proof. unfold on_ready. by destruct fault. Qed.

(** X18. [on_ready] keeps the users that [load_data] produced, keeps the
    record of every symbol that was loaded, gives each default symbol that
    was not loaded a fresh record at its mock base price, and tracks nothing
    else; this holds whether or not its save then fails.  When the save works
    the files hold the resulting memory. *)
Theorem on_ready_seeds_the_defaults {text : Type}
    `{Json text (gmap string account)} `{Json text (gmap string stock)}
    (fault : io_fault text) (hash : string → Z) (rnd : Qc) (clock : string → string)
    (w : world text) :
  let st0 := load_data (files w) (mem w) in
  let w' := (on_ready fault hash rnd clock w).1 in
  users_data (mem w') = users_data st0
  ∧ (∀ s : string,
       stocks_data (mem w') !! s
       = match stocks_data st0 !! s with
         | Some rec => Some rec
         | None =>
             if decide (s ∈ DEFAULT_STOCK_SYMBOLS)
             then Some (new_stock (clock s) (Qc_of_Z (hash s mod 1000)))
             else None
         end)
  ∧ match fault with
    | NoFault =>
        on_ready fault hash rnd clock w = (w', Return ())
        ∧ files w' = saved (mem w')
    | _ => (on_ready fault hash rnd clock w).2 = Raise OSError
    end.
Proof.
  intros st0 w'. unfold w', st0. rewrite on_ready_mem.
  cbn [users_data stocks_data].
  split; [done|]. split.
  - intros s. apply seed_loop_lookup.
  - unfold on_ready. by destruct fault.
Qed.

(** X19. A restart after a save loses nothing: when the files hold a state
    and the codec reads back what it wrote, [on_ready] in a new process (empty
    memory) restores the users and every stock record of that state; and when
    the state already tracks all default symbols, the memory after [on_ready]
    is exactly that state and the files still hold it. *)
Theorem restart_restores_the_saved_state {text : Type}
    `{Json text (gmap string account)} `{Json text (gmap string stock)}
    (hash : string → Z) (rnd : Qc) (clock : string → string) (st : bot_state) :
  lossless text (gmap string account) →
  lossless text (gmap string stock) →
  let w' := (on_ready NoFault hash rnd clock
               {| mem := initial_state; files := saved st |}).1 in
  users_data (mem w') = users_data st
  ∧ (∀ s rec, stocks_data st !! s = Some rec →
              stocks_data (mem w') !! s = Some rec)
  ∧ ((∀ s, s ∈ DEFAULT_STOCK_SYMBOLS → is_Some (stocks_data st !! s)) →
     mem w' = st ∧ files w' = saved st).
Proof.
  intros Hu Hs w'.
  assert (load_data (saved st) initial_state = st) as Hload.
  { unfold load_data, saved. simpl. rewrite Hu, Hs. by destruct st. }
  assert (∀ s, stocks_data (mem w') !! s
               = match stocks_data st !! s with
                 | Some rec => Some rec
                 | None =>
                     if decide (s ∈ DEFAULT_STOCK_SYMBOLS)
                     then Some (new_stock (clock s) (Qc_of_Z (hash s mod 1000)))
                     else None
                 end) as Hlook.
  { intros s. unfold w'. rewrite on_ready_mem.
    cbn [users_data stocks_data mem files]. rewrite Hload.
    apply seed_loop_lookup. }
  assert (users_data (mem w') = users_data st) as Husers.
  { unfold w'. rewrite on_ready_mem.
    cbn [users_data stocks_data mem files]. by rewrite Hload. }
  split; [done|]. split.
  - intros s rec Hrec. by rewrite Hlook, Hrec.
  - intros Hall.
    assert (mem w' = st) as Hmem.
    { destruct (mem w') as [u sd] eqn:E. destruct st as [u0 sd0].
      simpl in *. f_equal; [done|]. apply map_eq. intros s. rewrite Hlook.
      destruct (sd0 !! s) as [rec|] eqn:Hrec; [done|].
      destruct (decide (s ∈ DEFAULT_STOCK_SYMBOLS)) as [Hin|]; [|done].
      destruct (Hall s Hin) as [rec Hrec']. congruence. }
    split; [done|]. rewrite <- Hmem. unfold w', on_ready. by simpl.
Qed.

Lemma restart_restores_the_saved_state_witness :
  let w' := (on_ready NoFault (λ _, 3000) (Q2Qc (1 # 2)) (λ _, "t9")
               {| mem := initial_state;
                  files := saved (text := document) holder_state |}).1 in
  users_data (mem w') = users_data holder_state
  ∧ (∀ s rec, stocks_data holder_state !! s = Some rec →
              stocks_data (mem w') !! s = Some rec)
  ∧ ((∀ s, s ∈ DEFAULT_STOCK_SYMBOLS →
           is_Some (stocks_data holder_state !! s)) →
     mem w' = holder_state ∧ files w' = saved holder_state).
Proof.
  refine (restart_restores_the_saved_state (text := document) (λ _, 3000)
            (Q2Qc (1 # 2)) (λ _, "t9") holder_state
            document_users_lossless document_stocks_lossless).
Defined.

(** ** Leaderboard *)






(** ** Company information *)

Lemma length_append (a b : string) :
  String.length (a +:+ b) = (String.length a + String.length b)%nat.
Proof. induction a as [|c a IH]; simpl; [done|]. by rewrite IH. Qed.

Lemma length_substring_0 (n : nat) (s : string) :
  (n ≤ String.length s)%nat → String.length (substring 0 n s) = n.
Proof.
  revert s. induction n as [|n IH]; intros s Hn.
  - by destruct s.
  - destruct s as [|c s]; simpl in *; [lia|]. rewrite IH; [done|lia].
Qed.

Lemma substring_0_append (a b : string) :
  substring 0 (String.length a) (a +:+ b) = a.
Proof.
  induction a as [|c a IH]; simpl; [by destruct b|]. by rewrite IH.
Qed.

Lemma substring_skip_append (a b : string) (m : nat) :
  substring (String.length a) m (a +:+ b) = substring 0 m b.
Proof. induction a as [|c a IH]; simpl; [done|]. by rewrite IH. Qed.

(** X23. The description shown by [stock_info] never exceeds 1024
    characters: a description of up to 1024 characters is shown as it is, and
    a longer one is cut to its first 1021 characters followed by three dots,
    1024 characters in all. *)
Theorem truncate_description_fits (description : string) :
  (String.length (truncate_description description) ≤ 1024)%nat
  ∧ ((String.length description ≤ 1024)%nat →
     truncate_description description = description)
  ∧ ((1024 < String.length description)%nat →
     String.length (truncate_description description) = 1024%nat
     ∧ substring 0 1021 (truncate_description description)
       = substring 0 1021 description
     ∧ substring 1021 3 (truncate_description description) = "...").
Proof.
  unfold truncate_description.
  destruct (Nat.ltb_spec 1024 (String.length description)) as [Hlong|Hshort].
  - assert (String.length (substring 0 1021 description) = 1021%nat) as Hlen
      by (apply length_substring_0; lia).
    split_and!.
    + rewrite length_append, Hlen. simpl. lia.
    + lia.
    + intros _. split_and!.
      * rewrite length_append, Hlen. simpl. lia.
      * rewrite <- Hlen at 1. apply substring_0_append.
      * rewrite <- Hlen at 1. by rewrite substring_skip_append.
  - split_and!; [done|done|lia].
Qed.
